(** * pjsekai-overlay: chart retrieval pipeline ([pkg/pjsekaioverlay/chart.go])

    A shallow embedding of the five functions of [chart.go]:
    [DetectChartSource], [FetchChart], [FetchLevelData], [DownloadCover]
    and [DownloadBackground].  The pure part (source detection) is a plain
    function.  The effectful part runs in a small state monad over a
    [World] made of a file system and a log of the effects performed; the
    network, the [sonolus] package and the Go libraries the code calls
    ([encoding/json], [compress/gzip], [image], [x/image/draw],
    [image/png]) are interfaces the model is parameterised by. *)

From Stdlib Require Import ZArith NArith String Ascii List Lia DecimalString.
From stdpp Require Import base strings gmap.
Import ListNotations.

Open Scope string_scope.

(** ** Go values *)

(** A Go [error] is represented by its message; the [nil] error is [None]. *)
Definition error := string.

(** [errors.New]. *)
Definition errors_New (msg : string) : option error := Some msg.

(** [strings.HasPrefix(s, prefix)]. *)
Definition strings_HasPrefix (s prefix : string) : bool := String.prefix prefix s.

(** The [%d] verb of [fmt] applied to an [int]. *)
Definition fmt_d (n : Z) : string := NilZero.string_of_int (Z.to_int n).

(** ** Sources *)

Record Source := mkSource {
  Id : string;
  Name : string;
  Color : Z;
  Host : string
}.

(** The zero value of [Source], what [var source Source] holds. *)
Definition Source_zero : Source :=
  {| Id := ""; Name := ""; Color := 0; Host := "" |}.

Definition DetectChartSource (chartId : string) : Source * option error :=
  let source := Source_zero in
  let source :=
    if strings_HasPrefix chartId "ptlv-" then
      {| Id := "potato_leaves";
         Name := "Potato Leaves";
         Color := 0x88cb7f;
         Host := "ptlv.sevenc7c.com" |}
    else if strings_HasPrefix chartId "chcy-" then
      {| Id := "chart_cyanvas";
         Name := "Chart Cyanvas";
         Color := 0x83ccd2;
         Host := "cc.sevenc7c.com" |}
    else source in
  if String.eqb (Id source) "" then
    ({| Id := chartId; Name := ""; Color := 0; Host := "" |},
     errors_New "unknown chart source")
  else (source, None).

(** The registered entries, in declaration order: the prefix tested by each
    branch of [DetectChartSource] with the [Source] that branch builds. *)
Definition registered_sources : list (string * Source) :=
  [ ("ptlv-", {| Id := "potato_leaves"; Name := "Potato Leaves";
                 Color := 0x88cb7f; Host := "ptlv.sevenc7c.com" |});
    ("chcy-", {| Id := "chart_cyanvas"; Name := "Chart Cyanvas";
                 Color := 0x83ccd2; Host := "cc.sevenc7c.com" |}) ].

(** ** Paths: [path.Clean] and [path.Join] *)

Fixpoint split_slash (s : string) : list string :=
  match s with
  | EmptyString => [""]
  | String c rest =>
      if Ascii.eqb c "/" then "" :: split_slash rest
      else match split_slash rest with
           | [] => [String c ""]
           | e :: es => String c e :: es
           end
  end.

(** The elements that remain after [path.Clean]: empty and [.] elements are
    dropped, a [..] removes the element before it, is dropped at the root and
    is kept at the start of a relative path.  [stack] holds the elements kept
    so far, last one first. *)
Fixpoint clean_elems (rooted : bool) (stack elems : list string) : list string :=
  match elems with
  | [] => rev stack
  | e :: es =>
      if String.eqb e "" || String.eqb e "." then clean_elems rooted stack es
      else if String.eqb e ".." then
        match stack with
        | top :: below =>
            if String.eqb top ".." then clean_elems rooted (e :: stack) es
            else clean_elems rooted below es
        | [] => if rooted then clean_elems rooted [] es
                else clean_elems rooted [e] es
        end
      else clean_elems rooted (e :: stack) es
  end.

Definition is_rooted (p : string) : bool := String.prefix "/" p.

Definition path_elems (p : string) : list string :=
  clean_elems (is_rooted p) [] (split_slash p).

Definition render (rooted : bool) (elems : list string) : string :=
  if rooted then "/" ++ String.concat "/" elems
  else match elems with
       | [] => "."
       | _ => String.concat "/" elems
       end.

Definition path_Clean (p : string) : string :=
  render (is_rooted p) (path_elems p).

(** [path.Join(a, b)]: empty elements are ignored and the result is cleaned;
    joining nothing but empty elements gives the empty string. *)
Definition path_Join (a b : string) : string :=
  if String.eqb a "" then
    if String.eqb b "" then "" else path_Clean b
  else path_Clean (a ++ "/" ++ b).

(** The directory a cleaned path lives in. *)
Definition parent_dir (p : string) : string :=
  render (is_rooted p) (removelast (path_elems p)).

(** ** The file system

    Directories (with their mode) and regular files (with their content),
    keyed by cleaned path, the number of bytes the device still takes, and
    the file-mode creation mask of the process, which takes its bits off the
    mode of whatever is made.  The root [/] and the working directory [.] are
    directories like any other: they exist when they are in [dirs]. *)

Record FS := mkFS {
  dirs : gmap string N;
  files : gmap string (list Byte.byte);
  free : nat;
  umask : N
}.

(** An open file, [*os.File]: the cleaned path it was opened at; [None] is
    the nil pointer. *)
Definition File := option string.

(** Entries can be added to a directory whose owner may write and search it. *)
Definition dir_writable (mode : N) : bool := N.testbit mode 7 && N.testbit mode 6.

(** The mode [0755]: all for the owner, read and search for the others. *)
Definition mode_0755 : N := (7 * 64 + 5 * 8 + 5)%N.

(** The mode [0022], the usual mask: no write for the others. *)
Definition mode_0022 : N := (2 * 8 + 2)%N.

(** [mkdir(2)] at a cleaned path: the directory gets the mode asked for less
    the bits of the mask. *)
Definition os_Mkdir (p : string) (perm : N) (fs : FS) : option error * FS :=
  match dirs fs !! p, files fs !! p with
  | Some _, _ | _, Some _ => (Some ("mkdir " ++ p ++ ": file exists"), fs)
  | None, None =>
      match dirs fs !! parent_dir p with
      | None => (Some ("mkdir " ++ p ++ ": no such file or directory"), fs)
      | Some mode =>
          if dir_writable mode then
            (None, {| dirs := <[p := N.ldiff perm (umask fs)]> (dirs fs);
                      files := files fs; free := free fs; umask := umask fs |})
          else (Some ("mkdir " ++ p ++ ": permission denied"), fs)
      end
  end.

(** *** Paths as the kernel reads them

    The kernel does not clean a path: it goes through the elements one by
    one, and every directory on the way has to exist, also one that a later
    [..] leaves again.  The elements are those between the slashes, the empty
    ones that a doubled or a final slash leaves apart. *)
Definition raw_elems (p : string) : list string :=
  List.filter (fun e => negb (String.eqb e "")) (split_slash p).

(** One element further from the directory whose elements are [stack], the
    last one first. *)
Definition step (rooted : bool) (stack : list string) (e : string) : list string :=
  if String.eqb e "." then stack
  else if String.eqb e ".." then
    match stack with
    | top :: below => if String.eqb top ".." then e :: stack else below
    | [] => if rooted then [] else [e]
    end
  else e :: stack.

(** Through directories only: where the elements lead from the directory
    [stack], when that directory and every one reached on the way exist. *)
Fixpoint walk (fs : FS) (rooted : bool) (stack elems : list string)
  : option (list string) :=
  match dirs fs !! render rooted (rev stack) with
  | None => None
  | Some _ =>
      match elems with
      | [] => Some stack
      | e :: rest => walk fs rooted (step rooted stack e) rest
      end
  end.

Inductive Node := IsDir | IsFile | Missing.

(** [os.Stat] of the path whose elements are [relems], the last one first:
    [Missing] also when a directory on the way is. *)
Definition stat (rooted : bool) (relems : list string) (fs : FS) : Node :=
  match relems with
  | [] => match dirs fs !! render rooted [] with
          | Some _ => IsDir
          | None => Missing
          end
  | e :: rparent =>
      match walk fs rooted [] (rev rparent) with
      | None => Missing
      | Some stack =>
          let key := render rooted (rev (step rooted stack e)) in
          match dirs fs !! key, files fs !! key with
          | Some _, _ => IsDir
          | None, Some _ => IsFile
          | None, None => Missing
          end
      end
  end.

(** [os.Mkdir] of such a path: the directory it is to be made in has to be
    there, and [.] and [..] name what exists already. *)
Definition mkdir (rooted : bool) (relems : list string) (perm : N) (fs : FS)
  : option error * FS :=
  match relems with
  | [] => (Some "mkdir: file exists", fs)
  | e :: rparent =>
      match walk fs rooted [] (rev rparent) with
      | None => (Some "mkdir: no such file or directory", fs)
      | Some stack =>
          if String.eqb e "." || String.eqb e ".." then
            (Some "mkdir: file exists", fs)
          else os_Mkdir (render rooted (rev (e :: stack))) perm fs
      end
  end.

(** [os.MkdirAll], as its source has it: a path that is a directory is left
    alone and one that is a file is an error; otherwise the parent, the path
    less its last element, is made in the same way when there is one, then
    the path itself is, and a failure to make it counts only if it is no
    directory after all. *)
Fixpoint mkdir_all (rooted : bool) (relems : list string) (perm : N) (fs : FS)
  : option error * FS :=
  match stat rooted relems fs with
  | IsDir => (None, fs)
  | IsFile => (Some "mkdir: not a directory", fs)
  | Missing =>
      let parent :=
        match relems with
        | _ :: (_ :: _) as rparent => mkdir_all rooted rparent perm fs
        | _ => (None, fs)
        end in
      match parent with
      | (Some e, fs1) => (Some e, fs1)
      | (None, fs1) =>
          match mkdir rooted relems perm fs1 with
          | (None, fs2) => (None, fs2)
          | (Some e, fs2) =>
              match stat rooted relems fs2 with
              | IsDir => (None, fs2)
              | _ => (Some e, fs2)
              end
          end
      end
  end.

Definition fs_MkdirAll (path : string) (perm : N) (fs : FS) : option error * FS :=
  if String.eqb path "" then (Some "mkdir : no such file or directory", fs)
  else mkdir_all (is_rooted path) (rev (raw_elems path)) perm fs.

(** [os.Create]: open for writing, creating the file if needed and emptying
    it otherwise.  The result is Go's pair of a file and an error. *)
Definition fs_Create (name : string) (fs : FS) : (File * option error) * FS :=
  let p := path_Clean name in
  if String.eqb name "" then ((None, Some "open : no such file or directory"), fs)
  else
    match dirs fs !! p with
    | Some _ => ((None, Some ("open " ++ name ++ ": is a directory")), fs)
    | None =>
        match dirs fs !! parent_dir p with
        | None => ((None, Some ("open " ++ name ++ ": no such file or directory")), fs)
        | Some mode =>
            if bool_decide (is_Some (files fs !! p)) || dir_writable mode then
              ((Some p, None),
               {| dirs := dirs fs; files := <[p := []]> (files fs); free := free fs;
                  umask := umask fs |})
            else ((None, Some ("open " ++ name ++ ": permission denied")), fs)
        end
    end.

(** [File.Write] of package [os]: the bytes are appended as far as the device has room;
    a short write is an error. *)
Definition fs_Write (f : File) (b : list Byte.byte) (fs : FS)
  : (nat * option error) * FS :=
  match f with
  | None => ((0, Some "invalid argument"), fs)
  | Some p =>
      let n := Nat.min (length b) (free fs) in
      let old := default [] (files fs !! p) in
      ((n, if Nat.ltb n (length b) then Some ("write " ++ p ++ ": no space left on device")
           else None),
       {| dirs := dirs fs; files := <[p := (old ++ firstn n b)%list]> (files fs);
          free := free fs - n; umask := umask fs |})
  end.

(** [fs1] is [fs0] with more directories, each of them of mode [mode]:
    the files, the room and the mask are the same, and the directories of
    [fs0] are there with the mode they had. *)
Definition more_dirs (mode : N) (fs0 fs1 : FS) : Prop :=
  files fs1 = files fs0 /\ free fs1 = free fs0 /\ umask fs1 = umask fs0 /\
  (forall (q : string) (m : N), dirs fs0 !! q = Some m -> dirs fs1 !! q = Some m) /\
  (forall (q : string) (m : N),
     dirs fs1 !! q = Some m ->
     dirs fs0 !! q = Some m \/ (dirs fs0 !! q = None /\ m = mode)).

(** ** Streams, responses and the world *)

(** An [io.Reader] that is read once: the bytes it delivers, then the end of
    the stream ([None]) or the error that interrupts it. *)
Record Stream := mkStream {
  bytes : list Byte.byte;
  failure : option error
}.

(** [*http.Response], as far as the code looks at it. *)
Record Response := mkResponse {
  StatusCode : Z;
  Body : Stream
}.

Inductive Event :=
| EvGet (url : string)
| EvBodyClose
| EvMkdirAll (path : string)
| EvCreate (name : string)
| EvFileClose (f : File).

Record World := mkWorld {
  fs : FS;
  log : list Event
}.

(** Computations that act on the world. *)
Definition M (A : Type) : Type := World -> A * World.

Definition ret {A : Type} (a : A) : M A := fun w => (a, w).

Definition bind {A B : Type} (m : M A) (k : A -> M B) : M B :=
  fun w => let (a, w') := m w in k a w'.

Notation "'let*' p ':=' m 'in' k" := (bind m (fun p => k))
  (at level 10, p pattern, m at level 100, k at level 200).

Definition emit (e : Event) : M unit :=
  fun w => (tt, {| fs := fs w; log := (log w ++ [e])%list |}).

Definition on_fs {A : Type} (op : FS -> A * FS) : M A :=
  fun w => let (a, fs') := op (fs w) in (a, {| fs := fs'; log := log w |}).

(** [defer d] placed before [body]: [d] runs when [body] has returned. *)
Definition defer {A : Type} (d : M unit) (body : M A) : M A :=
  let* a := body in let* _ := d in ret a.

Definition Body_Close (resp : Response) : M unit := emit EvBodyClose.

Definition os_MkdirAll (path : string) (perm : N) : M (option error) :=
  let* _ := emit (EvMkdirAll path) in on_fs (fs_MkdirAll path perm).

Definition os_Create (name : string) : M (File * option error) :=
  let* _ := emit (EvCreate name) in on_fs (fs_Create name).

Definition File_Write (f : File) (b : list Byte.byte) : M (nat * option error) :=
  on_fs (fs_Write f b).

Definition File_Close (f : File) : M unit := emit (EvFileClose f).

(** [io.Copy(dst, src)]: what the source delivers is written to the file; the
    copy fails when the write falls short or when the source is interrupted. *)
Definition io_Copy (dst : File) (src : Stream) : M (nat * option error) :=
  let* (n, werr) := File_Write dst (bytes src) in
  match werr with
  | Some e => ret (n, Some e)
  | None => ret (n, failure src)
  end.

(** ** Images *)

Record Point := mkPoint { X : Z; Y : Z }.

Record Rectangle := mkRectangle { Min : Point; Max : Point }.

Definition Dx (r : Rectangle) : Z := (X (Max r) - X (Min r))%Z.
Definition Dy (r : Rectangle) : Z := (Y (Max r) - Y (Min r))%Z.

(** [image.Rect]: the corners are put in order. *)
Definition image_Rect (x0 y0 x1 y1 : Z) : Rectangle :=
  let (x0, x1) := if (x1 <? x0)%Z then (x1, x0) else (x0, x1) in
  let (y0, y1) := if (y1 <? y0)%Z then (y1, y0) else (y0, y1) in
  {| Min := {| X := x0; Y := y0 |}; Max := {| X := x1; Y := y1 |} |}.

(** [*image.RGBA]: four bytes a pixel, rows [Stride] bytes apart. *)
Record RGBA := mkRGBA {
  Pix : list Byte.byte;
  Stride : Z;
  Rect : Rectangle
}.

Definition RGBA_Bounds (m : RGBA) : Rectangle := Rect m.

(** [image.NewRGBA]: a transparent black image of the given bounds. *)
Definition image_NewRGBA (r : Rectangle) : RGBA :=
  {| Pix := repeat Byte.x00 (Z.to_nat (4 * Dx r * Dy r));
     Stride := (4 * Dx r)%Z;
     Rect := r |}.

(** [draw.Op]. *)
Inductive Op := Over | Src.

(** ** Package [sonolus]

    The package is part of the repository but not of [chart.go]; the code
    reads three URLs out of a [LevelInfo], treats [LevelData] as a whole and
    calls [JoinUrl], which returns Go's pair of a URL and an error. *)
Class Sonolus := {
  LevelInfo : Type;
  LevelInfo_zero : LevelInfo;
  Data_Url : LevelInfo -> string;
  Cover_Url : LevelInfo -> string;
  UseBackground_Item_Image_Url : LevelInfo -> string;
  LevelData : Type;
  LevelData_zero : LevelData;
  JoinUrl : string -> string -> string * option error
}.

(** Modelled from the spec: [sonolus.InfoResponse], the JSON envelope that
    wraps a single item; [Item] is the one field [chart.go] reads. *)
Record InfoResponse (T : Type) := mkInfoResponse { Item : T }.
Arguments mkInfoResponse {T} _.
Arguments Item {T} _.

(** ** The Go libraries

    Decoders take the stream they read and, where Go passes a pointer to the
    variable to fill, the value that variable holds; they return what it holds
    afterwards.  [ApproxBiLinear_pixels] is the pixel buffer that
    [draw.ApproxBiLinear.Scale] leaves behind, [png_bytes] the encoding that
    [png.Encode] writes. *)
Class GoLib {pkg : Sonolus} := {
  Image : Type;
  Image_Bounds : Image -> Rectangle;
  json_Decode_InfoResponse :
    Stream -> InfoResponse LevelInfo -> InfoResponse LevelInfo * option error;
  gzip_NewReader : Stream -> Stream + error;
  json_Decode_LevelData : Stream -> LevelData -> LevelData * option error;
  image_Decode : Stream -> Image + error;
  ApproxBiLinear_pixels :
    RGBA -> Rectangle -> Image -> Rectangle -> Op -> list Byte.byte;
  png_bytes : RGBA -> list Byte.byte
}.

Section Pipeline.

Context {pkg : Sonolus} {lib : GoLib}.

(** What the network answers to a GET of a URL: a response, or the transport
    error. *)
Variable network : string -> Response + error.

Definition http_Get (url : string) : M (Response + error) :=
  let* _ := emit (EvGet url) in ret (network url).

(** [draw.ApproxBiLinear.Scale(dst, dr, src, sr, op, nil)] draws into the
    pixels of [dst]; its stride and bounds stay as they are. *)
Definition ApproxBiLinear_Scale
    (dst : RGBA) (dr : Rectangle) (src : Image) (sr : Rectangle) (op : Op) : RGBA :=
  {| Pix := ApproxBiLinear_pixels dst dr src sr op;
     Stride := Stride dst;
     Rect := Rect dst |}.

(** [png.Encode(w, m)] refuses an image with an empty or oversized side and
    writes the encoding otherwise. *)
Definition png_Encode (w : File) (m : RGBA) : M (option error) :=
  let mw := Dx (RGBA_Bounds m) in
  let mh := Dy (RGBA_Bounds m) in
  if (mw <=? 0)%Z || (mh <=? 0)%Z || (2 ^ 32 <=? mw)%Z || (2 ^ 32 <=? mh)%Z then
    ret (Some ("png: invalid format: invalid image size: "
               ++ fmt_d mw ++ "x" ++ fmt_d mh))
  else
    let* (_, err) := File_Write w (png_bytes m) in ret err.

Definition FetchChart (source : Source) (chartId : string)
  : M (LevelInfo * option error) :=
  let url := "https://" ++ Host source ++ "/sonolus/levels/" ++ chartId in
  let* r := http_Get url in
  match r with
  | inr _ =>
      ret (LevelInfo_zero,
           errors_New "サーバーに接続できませんでした。(Could not connect to server.)")
  | inl resp =>
      defer (Body_Close resp)
        (if negb (StatusCode resp =? 200)%Z then
           ret (LevelInfo_zero,
                errors_New "譜面が見つかりませんでした。(Unable to search chart.)")
         else
           let chart := mkInfoResponse LevelInfo_zero in
           let (chart, _) := json_Decode_InfoResponse (Body resp) chart in
           ret (Item chart, None))
  end.

Definition FetchLevelData (source : Source) (level : LevelInfo)
  : M (LevelData * option error) :=
  let (url, err) := JoinUrl ("https://" ++ Host source) (Data_Url level) in
  match err with
  | Some e =>
      ret (LevelData_zero,
           Some ("URLの解析に失敗しました。(URL parsing failed.) [" ++ e ++ "]"))
  | None =>
      let* r := http_Get url in
      match r with
      | inr e =>
          ret (LevelData_zero,
               Some ("サーバーに接続できませんでした。(Could not connect to server.) ["
                     ++ e ++ "]"))
      | inl resp =>
          defer (Body_Close resp)
            (if negb (StatusCode resp =? 200)%Z then
               ret (LevelData_zero,
                    Some ("譜面データが見つかりませんでした。(No chart data found.) ["
                          ++ fmt_d (StatusCode resp) ++ "]"))
             else
               let data := LevelData_zero in
               match gzip_NewReader (Body resp) with
               | inr e =>
                   ret (LevelData_zero,
                        Some ("譜面データの読み込みに失敗しました。(Loading chart data failed.) ["
                              ++ e ++ "]"))
               | inl gzipReader =>
                   let (data, err) := json_Decode_LevelData gzipReader data in
                   match err with
                   | Some e =>
                       ret (LevelData_zero,
                            Some ("譜面データの読み込みに失敗しました。(Loading chart data failed.) ["
                                  ++ e ++ "]"))
                   | None => ret (data, None)
                   end
               end)
      end
  end.

Definition DownloadCover (source : Source) (level : LevelInfo) (destPath : string)
  : M (option error) :=
  let (url, err) := JoinUrl ("https://" ++ Host source) (Cover_Url level) in
  match err with
  | Some e =>
      ret (Some ("URLの解析に失敗しました。(URL parsing failed.) [" ++ e ++ "]"))
  | None =>
      let* r := http_Get url in
      match r with
      | inr e => ret (Some ("サーバーに接続できませんでした。（" ++ e ++ "）"))
      | inl resp =>
          defer (Body_Close resp)
            (if negb (StatusCode resp =? 200)%Z then
               ret (Some ("サーバーに接続できませんでした。(Could not connect to server.) ["
                          ++ fmt_d (StatusCode resp) ++ "]"))
             else
               let* _ := os_MkdirAll destPath mode_0755 in
               match image_Decode (Body resp) with
               | inr e =>
                   ret (Some ("ジャケットの読み込みに失敗しました。(Loading jacket failed.) ["
                              ++ e ++ "]"))
               | inl imageData =>
                   let newImage := image_NewRGBA (image_Rect 0 0 512 512) in
                   let newImage :=
                     ApproxBiLinear_Scale newImage (RGBA_Bounds newImage)
                       imageData (Image_Bounds imageData) Over in
                   let* (file, err) := os_Create (path_Join destPath "cover.png") in
                   match err with
                   | Some e =>
                       ret (Some ("ファイルの作成に失敗しました。(Failed to create file.) ["
                                  ++ e ++ "]"))
                   | None =>
                       defer (File_Close file)
                         (let* err := png_Encode file newImage in
                          match err with
                          | Some e =>
                              ret (Some ("ファイルの書き込みに失敗しました。(Failed to write file.) ["
                                         ++ e ++ "]"))
                          | None => ret None
                          end)
                   end
               end)
      end
  end.

(** The error of [JoinUrl] is stored in [err] and [err] is assigned again by
    [http.Get] before anything reads it; likewise the result of [io.Copy] is
    dropped and the test after it reads the [err] of [os.Create]. *)
Definition DownloadBackground (source : Source) (level : LevelInfo) (destPath : string)
  : M (option error) :=
  let (backgroundUrl, err) :=
    JoinUrl ("https://" ++ Host source) (UseBackground_Item_Image_Url level) in
  let* r := http_Get backgroundUrl in
  match r with
  | inr e =>
      ret (Some ("サーバーに接続できませんでした。(Could not connect to server.) ["
                 ++ e ++ "]"))
  | inl resp =>
      defer (Body_Close resp)
        (if negb (StatusCode resp =? 200)%Z then
           ret (Some ("背景が見つかりませんでした。(Background not found.) ["
                      ++ fmt_d (StatusCode resp) ++ "]"))
         else
           let* (file, err) := os_Create (path_Join destPath "background.png") in
           match err with
           | Some e =>
               ret (Some ("ファイルの作成に失敗しました。(Failed to create file.) ["
                          ++ e ++ "]"))
           | None =>
               defer (File_Close file)
                 (let* _ := io_Copy file (Body resp) in
                  match err with
                  | Some e =>
                      ret (Some ("ファイルの書き込みに失敗しました。(Failed to write file.) ["
                                 ++ e ++ "]"))
                  | None => ret None
                  end)
           end)
  end.

End Pipeline.

(** ** Error kinds

    [chart.go] has no error types, only messages.  The error taxonomy of the
    specification is read off the message: the kind of an error is decided by
    the sentence its message opens with. *)
Inductive ErrorKind :=
| UnknownSource
| ConnectivityError
| NotFoundError
| UrlResolutionError
| DecodeError
| FileIOError.

Definition spec_kind (e : error) : option ErrorKind :=
  if String.eqb e "unknown chart source" then Some UnknownSource
  else if String.prefix "サーバーに接続できませんでした。" e then Some ConnectivityError
  else if String.prefix "譜面が見つかりませんでした。" e
          || String.prefix "譜面データが見つかりませんでした。" e
          || String.prefix "背景が見つかりませんでした。" e then Some NotFoundError
  else if String.prefix "URLの解析に失敗しました。" e then Some UrlResolutionError
  else if String.prefix "譜面データの読み込みに失敗しました。" e
          || String.prefix "ジャケットの読み込みに失敗しました。" e then Some DecodeError
  else if String.prefix "ファイルの作成に失敗しました。" e
          || String.prefix "ファイルの書き込みに失敗しました。" e then Some FileIOError
  else None.

(** A request failed: the transport gave an error, or the status is not 200. *)
Definition request_failed (r : Response + error) : Prop :=
  match r with
  | inr _ => True
  | inl resp => StatusCode resp <> 200%Z
  end.

(** The world after more effects have been logged. *)
Definition logged (w : World) (es : list Event) : World :=
  {| fs := fs w; log := (log w ++ es)%list |}.

(** ** Test doubles

    Small stand-ins for the [sonolus] package, the Go libraries, the network
    and the disk, on which the statements below are run. *)
Module Stub.

Record Info := mkInfo { data_url : string; cover_url : string; background_url : string }.

(** A reference that starts with a colon is refused, as [net/url] refuses
    it; any other is appended to the base. *)
Definition join (base ref : string) : string * option error :=
  if String.prefix ":" ref then ("", Some "missing protocol scheme")
  else (base ++ ref, None).

Definition sonolus : Sonolus :=
  {| LevelInfo := Info;
     LevelInfo_zero := mkInfo "" "" "";
     Data_Url := data_url;
     Cover_Url := cover_url;
     UseBackground_Item_Image_Url := background_url;
     LevelData := list Byte.byte;
     LevelData_zero := [];
     JoinUrl := join |}.

(** Compression that only adds the two magic bytes of gzip. *)
Definition gzip (b : list Byte.byte) : list Byte.byte := Byte.x1f :: Byte.x8b :: b.

Definition gunzip (s : Stream) : Stream + error :=
  match bytes s with
  | Byte.x1f :: Byte.x8b :: rest => inl (mkStream rest (failure s))
  | _ => inr "gzip: invalid header"
  end.

(** A document is an opening brace followed by the data. *)
Definition marshal (d : list Byte.byte) : list Byte.byte := Byte.x7b :: d.

Definition unmarshal (s : Stream) (old : list Byte.byte) : list Byte.byte * option error :=
  match bytes s, failure s with
  | Byte.x7b :: d, None => (d, None)
  | _, Some e => (old, Some e)
  | _, None => (old, Some "invalid character looking for beginning of value")
  end.

Definition item : Info := mkInfo "/data.gz" "/cover.png" "/background.png".

Definition unmarshal_info (s : Stream) (old : InfoResponse Info)
  : InfoResponse Info * option error :=
  match bytes s with
  | Byte.x7b :: _ => (mkInfoResponse item, None)
  | _ => (old, Some "invalid character looking for beginning of value")
  end.

(** An image is its bounds; its encoding is two bytes of width and two of
    height. *)
Definition side (hi lo : Byte.byte) : Z := Z.of_N (256 * Byte.to_N hi + Byte.to_N lo).

Definition decode_image (s : Stream) : Rectangle + error :=
  match bytes s with
  | [w1; w0; h1; h0] => inl (image_Rect 0 0 (side w1 w0) (side h1 h0))
  | _ => inr "image: unknown format"
  end.

Definition golib : @GoLib sonolus :=
  @Build_GoLib sonolus
    Rectangle
    (fun r => r)
    unmarshal_info
    gunzip
    unmarshal
    decode_image
    (fun dst _ _ _ _ => Pix dst)
    (fun _ => [Byte.x89; Byte.x50; Byte.x4e; Byte.x47]).

Definition potato : Source :=
  {| Id := "potato_leaves"; Name := "Potato Leaves";
     Color := 0x88cb7f; Host := "ptlv.sevenc7c.com" |}.

(** A network that answers one URL and is unreachable for any other; the
    empty URL is refused before anything is sent. *)
Definition serve (url : string) (resp : Response) : string -> Response + error :=
  fun u =>
    if String.eqb u "" then inr "unsupported protocol scheme"
    else if String.eqb u url then inl resp
    else inr "dial tcp: no such host".

(** A disk with [/] and [/tmp], no file, room for [n] bytes, and the usual
    mask. *)
Definition disk (n : nat) : World :=
  {| fs := {| dirs := {[ "/" := mode_0755; "/tmp" := mode_0755 ]};
              files := ∅; free := n; umask := mode_0022 |};
     log := [] |}.

End Stub.

(** ** Cleaned paths

    What [path.Clean] returns, element by element: an element is plain when
    it is not empty, not a dot, not a double dot and holds no slash; a cleaned
    list of elements is a run of double dots, none of them when the path is
    rooted, followed by plain elements. *)
Fixpoint no_slash (s : string) : bool :=
  match s with
  | EmptyString => true
  | String c rest => negb (Ascii.eqb c "/") && no_slash rest
  end.

Definition plain (e : string) : bool :=
  negb (String.eqb e "") && negb (String.eqb e ".")
  && negb (String.eqb e "..") && no_slash e.

Fixpoint cleaned (rooted : bool) (es : list string) : bool :=
  match es with
  | [] => true
  | e :: rest =>
      if String.eqb e ".." then negb rooted && cleaned rooted rest
      else forallb plain es
  end.

(** A lossless stand-in for the PNG format: a signature, the bounds and the
    stride, each number written as so many ones closed by its sign, then the
    pixel bytes.  Its scaler leaves the size of the source as pixels. *)
Module Png.

Definition number (z : Z) : list Byte.byte :=
  (repeat Byte.x01 (Z.to_nat (Z.abs z))
   ++ [if (z <? 0)%Z then Byte.x03 else Byte.x02])%list.


Definition encode (m : RGBA) : list Byte.byte :=
  ([Byte.x89; Byte.x50; Byte.x4e; Byte.x47]
   ++ number (X (Min (Rect m))) ++ number (Y (Min (Rect m)))
   ++ number (X (Max (Rect m))) ++ number (Y (Max (Rect m)))
   ++ number (Stride m) ++ Pix m)%list.


Definition pixels (dst : RGBA) (dr : Rectangle) (src : Rectangle) (sr : Rectangle)
    (op : Op) : list Byte.byte :=
  (number (Dx sr) ++ number (Dy sr))%list.

Definition golib : @GoLib Stub.sonolus :=
  @Build_GoLib Stub.sonolus
    Rectangle
    (fun r => r)
    Stub.unmarshal_info
    Stub.gunzip
    Stub.unmarshal
    Stub.decode_image
    pixels
    encode.

End Png.

(** A stand-in for gzip that has a trailer, as the format has: the two magic
    bytes, the data, and a last byte that holds the length of the data.  The
    reader checks the magic bytes when it is opened and the trailer once the
    data is delivered, as [gzip.Reader] does: a stream with a wrong trailer
    delivers its data all the same, followed by the error.  With it a JSON
    decoder that, like [json.Decoder], returns the first value as soon as it
    is complete: a document is what stands between a pair of braces. *)
Module Framed.

Definition trailer (data : list Byte.byte) : Byte.byte :=
  default Byte.x00 (Byte.of_N (N.of_nat (length data) mod 256)).

Definition gzip (data : list Byte.byte) : list Byte.byte :=
  (Byte.x1f :: Byte.x8b :: data ++ [trailer data])%list.

(** The data and the trailer of what follows the magic bytes. *)
Fixpoint unframe (b : list Byte.byte) : option (list Byte.byte * Byte.byte) :=
  match b with
  | [] => None
  | [t] => Some ([], t)
  | c :: rest =>
      match unframe rest with
      | Some (data, t) => Some (c :: data, t)
      | None => None
      end
  end.

(** A body is valid gzip when it is the compression of some data. *)
Definition valid (body : list Byte.byte) : bool :=
  match body with
  | Byte.x1f :: Byte.x8b :: rest =>
      match unframe rest with
      | Some (data, t) => Byte.eqb t (trailer data)
      | None => false
      end
  | _ => false
  end.

Definition gunzip (s : Stream) : Stream + error :=
  match bytes s with
  | Byte.x1f :: Byte.x8b :: rest =>
      match unframe rest with
      | Some (data, t) =>
          if Byte.eqb t (trailer data) then inl (mkStream data (failure s))
          else inl (mkStream data (Some "gzip: invalid checksum"))
      | None => inl (mkStream [] (Some "unexpected EOF"))
      end
  | _ => inr "gzip: invalid header"
  end.

Definition marshal (d : list Byte.byte) : list Byte.byte :=
  (Byte.x7b :: d ++ [Byte.x7d])%list.

Fixpoint until_brace (b : list Byte.byte) : option (list Byte.byte) :=
  match b with
  | [] => None
  | Byte.x7d :: _ => Some []
  | c :: rest =>
      match until_brace rest with
      | Some d => Some (c :: d)
      | None => None
      end
  end.

Definition unmarshal (s : Stream) (old : list Byte.byte)
  : list Byte.byte * option error :=
  match bytes s with
  | Byte.x7b :: rest =>
      match until_brace rest with
      | Some d => (d, None)
      | None => (old, Some (default "unexpected EOF" (failure s)))
      end
  | _ => (old, Some (default "invalid character looking for beginning of value"
                       (failure s)))
  end.

Definition golib : @GoLib Stub.sonolus :=
  @Build_GoLib Stub.sonolus
    Rectangle
    (fun r => r)
    Stub.unmarshal_info
    gunzip
    unmarshal
    Stub.decode_image
    (fun dst _ _ _ _ => Pix dst)
    (fun _ => [Byte.x89; Byte.x50; Byte.x4e; Byte.x47]).

End Framed.

(** More worlds to run the statements on. *)
Module Fixture.

(** A disk with [/], [/tmp] and [/tmp/out], a directory sitting at
    [/tmp/out/cover.png], a file of notes beside it, and room for [n]
    bytes. *)
Definition cluttered (n : nat) : World :=
  {| fs := {| dirs := {[ "/" := mode_0755; "/tmp" := mode_0755;
                         "/tmp/out" := mode_0755;
                         "/tmp/out/cover.png" := mode_0755 ]};
              files := {[ "/tmp/out/notes.txt" := [Byte.x68; Byte.x69] ]};
              free := n; umask := mode_0022 |};
     log := [] |}.

(** A disk with [/], [/tmp] and [/tmp/out], a file of notes in it, and room
    for [n] bytes. *)
Definition used (n : nat) : World :=
  {| fs := {| dirs := {[ "/" := mode_0755; "/tmp" := mode_0755;
                         "/tmp/out" := mode_0755 ]};
              files := {[ "/tmp/out/notes.txt" := [Byte.x68; Byte.x69] ]};
              free := n; umask := mode_0022 |};
     log := [] |}.

(** A disk with [/] and [/tmp], no file, room for [n] bytes, and the mask
    [0077], which leaves nothing to the others. *)
Definition shut (n : nat) : World :=
  {| fs := {| dirs := {[ "/" := mode_0755; "/tmp" := mode_0755 ]};
              files := ∅; free := n; umask := (7 * 8 + 7)%N |};
     log := [] |}.

(** A disk on which [/tmp/file] is a regular file. *)
Definition blocked (n : nat) : World :=
  {| fs := {| dirs := {[ "/" := mode_0755; "/tmp" := mode_0755 ]};
              files := {[ "/tmp/file" := [Byte.x68; Byte.x69] ]};
              free := n; umask := mode_0022 |};
     log := [] |}.

(** The cover and background endpoints answering 200 with the given body. *)
Definition cover (body : Stream) : string -> Response + error :=
  Stub.serve "https://ptlv.sevenc7c.com/cover.png" (mkResponse 200 body).

Definition background (body : Stream) : string -> Response + error :=
  Stub.serve "https://ptlv.sevenc7c.com/background.png" (mkResponse 200 body).

(** Both asset endpoints answering 200, each with its body. *)
Definition assets (cover_body background_body : Stream)
  : string -> Response + error :=
  fun u =>
    if String.eqb u "https://ptlv.sevenc7c.com/cover.png"
    then inl (mkResponse 200 cover_body)
    else background background_body u.

(** Four bytes that the stand-in decoder reads as an image of 100 by 50. *)
Definition picture : Stream :=
  mkStream [Byte.x00; Byte.x64; Byte.x00; Byte.x32] None.

End Fixture.

(** ** Source detection *)

Lemma prefix_String (a b : ascii) (p s : string) :
  String.prefix (String a p) (String b s) =
  if ascii_dec a b then String.prefix p s else false.
Proof. reflexivity. Qed.

Lemma HasPrefix_ptlv_chcy (chartId : string) :
  strings_HasPrefix chartId "chcy-" = true ->
  strings_HasPrefix chartId "ptlv-" = false.
Proof.
  unfold strings_HasPrefix.
  destruct chartId as [|a rest]; [discriminate|].
  rewrite !prefix_String.
  destruct (ascii_dec "c"%char a) as [E|_]; [subst a; reflexivity | discriminate].
Qed.

(** C1.  An identifier carrying a registered prefix resolves, with a nil
    error, to the Source of that entry, whose host is not empty; an
    identifier carrying no registered prefix resolves to the "unknown chart
    source" error and a Source that keeps the identifier as its id and has an
    empty name and host. *)
Theorem DetectChartSource_resolve (chartId : string) :
  (forall pre src,
      In (pre, src) registered_sources ->
      strings_HasPrefix chartId pre = true ->
      DetectChartSource chartId = (src, None) /\ Host src <> "") /\
  ((forall pre src,
      In (pre, src) registered_sources ->
      strings_HasPrefix chartId pre = false) ->
   DetectChartSource chartId =
     ({| Id := chartId; Name := ""; Color := 0; Host := "" |},
      Some "unknown chart source")).
Proof.
  split.
  - intros pre src Hin Hpre. simpl in Hin.
    destruct Hin as [E | [E | []]]; inversion E; subst; clear E.
    + unfold DetectChartSource. rewrite Hpre. simpl. split; [reflexivity | discriminate].
    + unfold DetectChartSource.
      rewrite (HasPrefix_ptlv_chcy _ Hpre), Hpre. simpl.
      split; [reflexivity | discriminate].
  - intros Hnone. unfold DetectChartSource.
    rewrite (Hnone "ptlv-" _ (or_introl eq_refl)).
    rewrite (Hnone "chcy-" _ (or_intror (or_introl eq_refl))).
    reflexivity.
Qed.

Lemma DetectChartSource_resolve_examples :
  (DetectChartSource "ptlv-abc123" =
     ({| Id := "potato_leaves"; Name := "Potato Leaves";
         Color := 0x88cb7f; Host := "ptlv.sevenc7c.com" |}, None)
   /\ "ptlv.sevenc7c.com" <> "") /\
  DetectChartSource "xyz-000" =
    ({| Id := "xyz-000"; Name := ""; Color := 0; Host := "" |},
     Some "unknown chart source").
Proof.
  destruct (DetectChartSource_resolve "ptlv-abc123") as [Hreg _].
  destruct (DetectChartSource_resolve "xyz-000") as [_ Hunk].
  split.
  - apply (Hreg "ptlv-"); [left; reflexivity | reflexivity].
  - apply Hunk. intros pre src Hin. simpl in Hin.
    destruct Hin as [E | [E | []]]; inversion E; reflexivity.
Defined.

(** ** Running the pipeline *)

Ltac run :=
  cbv beta iota zeta delta
    [bind ret emit defer on_fs http_Get Body_Close File_Close
     os_Create os_MkdirAll File_Write io_Copy errors_New logged];
  cbn [fs log fst snd].

Ltac tidy := cbn [fs log fst snd files]; rewrite <- ?app_assoc; cbn [app].

Lemma status_not_200 (resp : Response) :
  StatusCode resp <> 200%Z -> negb (StatusCode resp =? 200)%Z = true.
Proof. intros Hne. apply negb_true_iff, Z.eqb_neq, Hne. Qed.

Lemma status_200 (resp : Response) :
  StatusCode resp = 200%Z -> negb (StatusCode resp =? 200)%Z = false.
Proof. intros ->. reflexivity. Qed.

(** *** The file system *)

Lemma fs_Create_ok (name : string) (fs0 : FS) (f : File) (fs1 : FS) :
  fs_Create name fs0 = ((f, None), fs1) ->
  f = Some (path_Clean name) /\
  fs1 = {| dirs := dirs fs0;
           files := <[path_Clean name := []]> (files fs0);
           free := free fs0;
           umask := umask fs0 |}.
Proof.
  unfold fs_Create. intros Hcreate.
  destruct (String.eqb name ""); [discriminate|].
  destruct (dirs fs0 !! path_Clean name); [discriminate|].
  destruct (dirs fs0 !! parent_dir (path_Clean name)); [|discriminate].
  destruct (_ || _); [|discriminate].
  inversion Hcreate. split; reflexivity.
Qed.

Lemma fs_Create_error (name : string) (fs0 : FS) (f : File) (e : error) (fs1 : FS) :
  fs_Create name fs0 = ((f, Some e), fs1) -> fs1 = fs0.
Proof.
  unfold fs_Create. intros Hcreate.
  destruct (String.eqb name ""); [inversion Hcreate; reflexivity|].
  destruct (dirs fs0 !! path_Clean name); [inversion Hcreate; reflexivity|].
  destruct (dirs fs0 !! parent_dir (path_Clean name));
    [|inversion Hcreate; reflexivity].
  destruct (_ || _); [discriminate | inversion Hcreate; reflexivity].
Qed.

Lemma fs_Create_dirs (name : string) (fs0 : FS) :
  dirs (snd (fs_Create name fs0)) = dirs fs0.
Proof.
  destruct (fs_Create name fs0) as [[f [e|]] fs1] eqn:Hcreate.
  - apply fs_Create_error in Hcreate. subst. reflexivity.
  - apply fs_Create_ok in Hcreate as [_ ->]. reflexivity.
Qed.

(** Writing to a freshly created file what the device has room for leaves
    exactly those bytes in it. *)
Lemma fs_Write_fits (p : string) (b : list Byte.byte) (fs0 : FS) :
  files fs0 !! p = Some [] ->
  length b <= free fs0 ->
  fs_Write (Some p) b fs0 =
    ((length b, None),
     {| dirs := dirs fs0; files := <[p := b]> (files fs0);
        free := free fs0 - length b; umask := umask fs0 |}).
Proof.
  intros Hempty Hroom. unfold fs_Write.
  rewrite Hempty, Nat.min_l by exact Hroom.
  rewrite Nat.ltb_irrefl, firstn_all. reflexivity.
Qed.

Section PipelineFacts.

Context {pkg : Sonolus} {lib : GoLib}.
Variable network : string -> Response + error.

(** *** Metadata *)

(** C5.  When the metadata endpoint answers with a status other than 200,
    [FetchChart] returns the zero LevelInfo with the chart-not-found error (a
    NotFoundError); the body is closed without being read: nothing of the
    outcome depends on it. *)
Theorem FetchChart_not_found
    (source : Source) (chartId : string) (resp : Response) (w : World) :
  network ("https://" ++ Host source ++ "/sonolus/levels/" ++ chartId) = inl resp ->
  StatusCode resp <> 200%Z ->
  FetchChart network source chartId w =
    ((LevelInfo_zero, Some "譜面が見つかりませんでした。(Unable to search chart.)"),
     logged w [EvGet ("https://" ++ Host source ++ "/sonolus/levels/" ++ chartId);
               EvBodyClose])
  /\ spec_kind "譜面が見つかりませんでした。(Unable to search chart.)"
     = Some NotFoundError.
Proof.
  intros Hnet Hstatus. split; [|reflexivity].
  unfold FetchChart. run. rewrite Hnet, (status_not_200 _ Hstatus).
  tidy. reflexivity.
Qed.

(** C9.  When the metadata endpoint answers 200 and the decoder reports an
    error, [FetchChart] still returns a nil error, with the item of whatever
    envelope the decoder left behind. *)
Theorem FetchChart_decode_error_dropped
    (source : Source) (chartId : string) (resp : Response)
    (chart : InfoResponse LevelInfo) (e : error) (w : World) :
  network ("https://" ++ Host source ++ "/sonolus/levels/" ++ chartId) = inl resp ->
  StatusCode resp = 200%Z ->
  json_Decode_InfoResponse (Body resp) (mkInfoResponse LevelInfo_zero) = (chart, Some e) ->
  fst (FetchChart network source chartId w) = (Item chart, None).
Proof.
  intros Hnet Hstatus Hdecode.
  unfold FetchChart. run. rewrite Hnet, (status_200 _ Hstatus), Hdecode.
  reflexivity.
Qed.

(** *** Level data *)

Lemma FetchLevelData_url_error
    (source : Source) (level : LevelInfo) (url : string) (e : error) (w : World) :
  JoinUrl ("https://" ++ Host source) (Data_Url level) = (url, Some e) ->
  FetchLevelData network source level w =
    ((LevelData_zero,
      Some ("URLの解析に失敗しました。(URL parsing failed.) [" ++ e ++ "]")), w).
Proof. intros Hjoin. unfold FetchLevelData. rewrite Hjoin. reflexivity. Qed.

Lemma kind_url_parsing (e : error) :
  spec_kind ("URLの解析に失敗しました。(URL parsing failed.) [" ++ e ++ "]")
  = Some UrlResolutionError.
Proof. reflexivity. Qed.

Lemma kind_loading_failed (e : error) :
  spec_kind ("譜面データの読み込みに失敗しました。(Loading chart data failed.) [" ++ e ++ "]")
  = Some DecodeError.
Proof. reflexivity. Qed.

Section LevelDataRoundTrip.

(** The encoders that produce what the level-data endpoint serves, and the
    decoders of [FetchLevelData] undoing them. *)
Variable json_Marshal : LevelData -> list Byte.byte.
Variable gzip_compress : list Byte.byte -> list Byte.byte.

Hypothesis gzip_inverse : forall b : list Byte.byte,
  gzip_NewReader (mkStream (gzip_compress b) None) = inl (mkStream b None).

Hypothesis json_inverse : forall d : LevelData,
  json_Decode_LevelData (mkStream (json_Marshal d) None) LevelData_zero = (d, None).

(** C3.  Served as the body of a 200 response, the gzip-compressed JSON of a
    LevelData is fetched back as that same LevelData with a nil error.  A 200
    response whose body the gzip reader refuses to open, or whose stream the
    JSON decoder reports an error on, gives the zero LevelData and the
    loading-chart-data-failed error (a DecodeError). *)
Theorem FetchLevelData_round_trip
    (source : Source) (level : LevelInfo) (url : string) (w : World) :
  JoinUrl ("https://" ++ Host source) (Data_Url level) = (url, None) ->
  (forall d : LevelData,
      network url
        = inl (mkResponse 200 (mkStream (gzip_compress (json_Marshal d)) None)) ->
      fst (FetchLevelData network source level w) = (d, None)) /\
  (forall (resp : Response) (e : error),
      network url = inl resp ->
      StatusCode resp = 200%Z ->
      gzip_NewReader (Body resp) = inr e ->
      fst (FetchLevelData network source level w) =
        (LevelData_zero,
         Some ("譜面データの読み込みに失敗しました。(Loading chart data failed.) ["
               ++ e ++ "]"))
      /\ spec_kind ("譜面データの読み込みに失敗しました。(Loading chart data failed.) ["
                    ++ e ++ "]") = Some DecodeError) /\
  (forall (resp : Response) (gzipReader : Stream) (data : LevelData) (e : error),
      network url = inl resp ->
      StatusCode resp = 200%Z ->
      gzip_NewReader (Body resp) = inl gzipReader ->
      json_Decode_LevelData gzipReader LevelData_zero = (data, Some e) ->
      fst (FetchLevelData network source level w) =
        (LevelData_zero,
         Some ("譜面データの読み込みに失敗しました。(Loading chart data failed.) ["
               ++ e ++ "]"))
      /\ spec_kind ("譜面データの読み込みに失敗しました。(Loading chart data failed.) ["
                    ++ e ++ "]") = Some DecodeError).
Proof.
  intros Hjoin. split; [|split].
  - intros d Hnet. unfold FetchLevelData. rewrite Hjoin. run. rewrite Hnet.
    cbn [StatusCode Body Z.eqb Pos.eqb negb].
    rewrite gzip_inverse, json_inverse. reflexivity.
  - intros resp e Hnet Hstatus Hgzip. split; [|apply kind_loading_failed].
    unfold FetchLevelData. rewrite Hjoin. run.
    rewrite Hnet, (status_200 _ Hstatus), Hgzip. reflexivity.
  - intros resp gzipReader data e Hnet Hstatus Hgzip Hjson.
    split; [|apply kind_loading_failed].
    unfold FetchLevelData. rewrite Hjoin. run.
    rewrite Hnet, (status_200 _ Hstatus), Hgzip, Hjson. reflexivity.
Qed.

End LevelDataRoundTrip.

(** A 200 response that opens as gzip but does not decode as JSON fails in
    the same way. *)
Lemma FetchLevelData_json_error
    (source : Source) (level : LevelInfo) (url : string) (resp : Response)
    (gzipReader : Stream) (data : LevelData) (e : error) (w : World) :
  JoinUrl ("https://" ++ Host source) (Data_Url level) = (url, None) ->
  network url = inl resp ->
  StatusCode resp = 200%Z ->
  gzip_NewReader (Body resp) = inl gzipReader ->
  json_Decode_LevelData gzipReader LevelData_zero = (data, Some e) ->
  fst (FetchLevelData network source level w) =
    (LevelData_zero,
     Some ("譜面データの読み込みに失敗しました。(Loading chart data failed.) ["
           ++ e ++ "]")).
Proof.
  intros Hjoin Hnet Hstatus Hgzip Hjson.
  unfold FetchLevelData. rewrite Hjoin. run.
  rewrite Hnet, (status_200 _ Hstatus), Hgzip, Hjson. reflexivity.
Qed.

(** *** Background *)

(** C4.  When the background endpoint answers 200, the file can be created
    and the device has room, [DownloadBackground] returns nil and
    [background.png] under the destination holds the very bytes of the
    body. *)
Theorem DownloadBackground_copies_body
    (source : Source) (level : LevelInfo) (destPath : string)
    (url : string) (jerr : option error) (resp : Response) (w : World)
    (f : File) (fs1 : FS) :
  JoinUrl ("https://" ++ Host source) (UseBackground_Item_Image_Url level)
    = (url, jerr) ->
  network url = inl resp ->
  StatusCode resp = 200%Z ->
  fs_Create (path_Join destPath "background.png") (fs w) = ((f, None), fs1) ->
  length (bytes (Body resp)) <= free fs1 ->
  fst (DownloadBackground network source level destPath w) = None /\
  files (fs (snd (DownloadBackground network source level destPath w)))
    !! path_Clean (path_Join destPath "background.png")
  = Some (bytes (Body resp)).
Proof.
  intros Hjoin Hnet Hstatus Hcreate Hroom.
  destruct (fs_Create_ok _ _ _ _ Hcreate) as [-> Hfs1].
  unfold DownloadBackground. rewrite Hjoin. run.
  rewrite Hnet, (status_200 _ Hstatus). tidy. rewrite Hcreate.
  tidy. rewrite fs_Write_fits.
  - tidy. split; [reflexivity | apply lookup_insert_eq].
  - rewrite Hfs1. apply lookup_insert_eq.
  - exact Hroom.
Qed.

(** C10.  When the background endpoint answers 200 and the file is created,
    [DownloadBackground] returns nil whatever [io.Copy] returns: the world it
    leaves is the one the copy left, with the file and the body closed. *)
Theorem DownloadBackground_copy_result_unread
    (source : Source) (level : LevelInfo) (destPath : string)
    (url : string) (jerr : option error) (resp : Response) (w : World)
    (f : File) (fs1 : FS) (n : nat) (cerr : option error) (w2 : World) :
  JoinUrl ("https://" ++ Host source) (UseBackground_Item_Image_Url level)
    = (url, jerr) ->
  network url = inl resp ->
  StatusCode resp = 200%Z ->
  fs_Create (path_Join destPath "background.png") (fs w) = ((f, None), fs1) ->
  io_Copy f (Body resp)
    {| fs := fs1;
       log := log w ++ [EvGet url; EvCreate (path_Join destPath "background.png")] |}
    = ((n, cerr), w2) ->
  DownloadBackground network source level destPath w
    = (None, logged w2 [EvFileClose f; EvBodyClose]).
Proof.
  intros Hjoin Hnet Hstatus Hcreate Hcopy.
  unfold DownloadBackground. rewrite Hjoin. run.
  rewrite Hnet, (status_200 _ Hstatus). tidy. rewrite Hcreate.
  revert Hcopy. run. tidy.
  destruct (fs_Write f (bytes (Body resp)) fs1) as [[n' werr] fs2].
  destruct werr as [e|]; intros Hcopy; inversion Hcopy; subst; tidy;
    reflexivity.
Qed.

(** *** Cover *)

Lemma DownloadCover_url_error
    (source : Source) (level : LevelInfo) (destPath url : string) (e : error)
    (w : World) :
  JoinUrl ("https://" ++ Host source) (Cover_Url level) = (url, Some e) ->
  DownloadCover network source level destPath w =
    (Some ("URLの解析に失敗しました。(URL parsing failed.) [" ++ e ++ "]"), w).
Proof. intros Hjoin. unfold DownloadCover. rewrite Hjoin. reflexivity. Qed.

Lemma png_Encode_writes (f : File) (m : RGBA) :
  (0 < Dx (Rect m) < 2 ^ 32)%Z ->
  (0 < Dy (Rect m) < 2 ^ 32)%Z ->
  png_Encode f m = (let* (_, err) := File_Write f (png_bytes m) in ret err).
Proof.
  intros Hx Hy. unfold png_Encode, RGBA_Bounds.
  destruct (Z.leb_spec (Dx (Rect m)) 0); [lia|].
  destruct (Z.leb_spec (Dy (Rect m)) 0); [lia|].
  destruct (Z.leb_spec (2 ^ 32) (Dx (Rect m))); [lia|].
  destruct (Z.leb_spec (2 ^ 32) (Dy (Rect m))); [lia|].
  reflexivity.
Qed.


Section CoverEncoding.

(** The decoder that undoes [png.Encode]: the format loses nothing. *)
Variable png_Decode : list Byte.byte -> option RGBA.

Hypothesis png_lossless : forall m : RGBA, png_Decode (png_bytes m) = Some m.


End CoverEncoding.

(** *** Failed requests *)

Lemma DownloadBackground_url_error_unread
    (source : Source) (level : LevelInfo) (destPath url : string) (e : error)
    (w : World) :
  JoinUrl ("https://" ++ Host source) (UseBackground_Item_Image_Url level)
    = (url, Some e) ->
  exists rest : list Event,
    log (snd (DownloadBackground network source level destPath w))
    = (log w ++ EvGet url :: rest)%list.
Proof.
  intros Hjoin. unfold DownloadBackground. rewrite Hjoin. run.
  destruct (network url) as [resp|terr]; tidy; [|eexists; reflexivity].
  destruct (negb (StatusCode resp =? 200)%Z); tidy; [eexists; reflexivity|].
  destruct (fs_Create _ (fs w)) as [[f [cerr|]] fs1]; tidy;
    [eexists; reflexivity|].
  destruct (fs_Write f (bytes (Body resp)) fs1) as [[n [werr|]] fs2]; tidy;
    eexists; reflexivity.
Qed.

(** [DownloadBackground] makes no directory. *)
Lemma DownloadBackground_keeps_dirs
    (source : Source) (level : LevelInfo) (destPath : string) (w : World) :
  dirs (fs (snd (DownloadBackground network source level destPath w)))
  = dirs (fs w).
Proof.
  unfold DownloadBackground.
  destruct (JoinUrl _ _) as [url jerr]. run.
  destruct (network url) as [resp|terr]; tidy; [|reflexivity].
  destruct (negb (StatusCode resp =? 200)%Z); tidy; [reflexivity|].
  pose proof (fs_Create_dirs (path_Join destPath "background.png") (fs w)) as Hdirs.
  destruct (fs_Create _ (fs w)) as [[f [cerr|]] fs1]; tidy; [exact Hdirs|].
  cbn [snd] in Hdirs. unfold fs_Write.
  destruct f as [p|]; tidy; [|exact Hdirs].
  destruct (Nat.ltb _ _); tidy; exact Hdirs.
Qed.

(** X18.  A request that fails, by a transport error or by a status other
    than 200, makes every operation return an error and leave the file
    system as it was: no file and no directory is made, and none is
    changed. *)
Theorem failed_request_keeps_fs
    (source : Source) (level : LevelInfo) (chartId destPath : string) (w : World) :
  (request_failed
     (network ("https://" ++ Host source ++ "/sonolus/levels/" ++ chartId)) ->
   exists e : error,
     fst (FetchChart network source chartId w) = (LevelInfo_zero, Some e) /\
     fs (snd (FetchChart network source chartId w)) = fs w) /\
  (forall url : string,
     JoinUrl ("https://" ++ Host source) (Data_Url level) = (url, None) ->
     request_failed (network url) ->
     exists e : error,
       fst (FetchLevelData network source level w) = (LevelData_zero, Some e) /\
       fs (snd (FetchLevelData network source level w)) = fs w) /\
  (forall url : string,
     JoinUrl ("https://" ++ Host source) (Cover_Url level) = (url, None) ->
     request_failed (network url) ->
     exists e : error,
       fst (DownloadCover network source level destPath w) = Some e /\
       fs (snd (DownloadCover network source level destPath w)) = fs w) /\
  (forall (url : string) (jerr : option error),
     JoinUrl ("https://" ++ Host source) (UseBackground_Item_Image_Url level)
       = (url, jerr) ->
     request_failed (network url) ->
     exists e : error,
       fst (DownloadBackground network source level destPath w) = Some e /\
       fs (snd (DownloadBackground network source level destPath w)) = fs w).
Proof.
  repeat split.
  - unfold FetchChart. run.
    destruct (network _) as [resp|terr]; cbn [request_failed];
      intros Hfail; [rewrite (status_not_200 _ Hfail)|];
      tidy; eexists; repeat split; reflexivity.
  - intros url Hjoin. unfold FetchLevelData. rewrite Hjoin. run.
    destruct (network url) as [resp|terr]; cbn [request_failed];
      intros Hfail; [rewrite (status_not_200 _ Hfail)|];
      tidy; eexists; repeat split; reflexivity.
  - intros url Hjoin. unfold DownloadCover. rewrite Hjoin. run.
    destruct (network url) as [resp|terr]; cbn [request_failed];
      intros Hfail; [rewrite (status_not_200 _ Hfail)|];
      tidy; eexists; repeat split; reflexivity.
  - intros url jerr Hjoin. unfold DownloadBackground. rewrite Hjoin. run.
    destruct (network url) as [resp|terr]; cbn [request_failed];
      intros Hfail; [rewrite (status_not_200 _ Hfail)|];
      tidy; eexists; repeat split; reflexivity.
Qed.

End PipelineFacts.

(** ** The statements on concrete inputs *)

Lemma FetchChart_not_found_404 :
  let network :=
    Stub.serve "https://ptlv.sevenc7c.com/sonolus/levels/ptlv-abc123"
      (mkResponse 404 (mkStream [Byte.x7b] None)) in
  network "https://ptlv.sevenc7c.com/sonolus/levels/ptlv-abc123"
    = inl (mkResponse 404 (mkStream [Byte.x7b] None)) /\
  (404 <> 200)%Z /\
  (FetchChart (pkg := Stub.sonolus) (lib := Stub.golib)
     network Stub.potato "ptlv-abc123" (Stub.disk 0)
   = ((Stub.mkInfo "" "" "", Some "譜面が見つかりませんでした。(Unable to search chart.)"),
      logged (Stub.disk 0)
        [EvGet "https://ptlv.sevenc7c.com/sonolus/levels/ptlv-abc123"; EvBodyClose])
   /\ spec_kind "譜面が見つかりませんでした。(Unable to search chart.)"
      = Some NotFoundError).
Proof.
  intros network.
  split; [reflexivity|]. split; [lia|].
  apply (FetchChart_not_found (pkg := Stub.sonolus) (lib := Stub.golib)
           network Stub.potato "ptlv-abc123"
           (mkResponse 404 (mkStream [Byte.x7b] None)) (Stub.disk 0)).
  - reflexivity.
  - simpl. lia.
Defined.

Lemma FetchChart_decode_error_dropped_example :
  let network :=
    Stub.serve "https://ptlv.sevenc7c.com/sonolus/levels/ptlv-abc123"
      (mkResponse 200 (mkStream [Byte.x3c; Byte.x68] None)) in
  Stub.unmarshal_info (mkStream [Byte.x3c; Byte.x68] None)
      (mkInfoResponse (Stub.mkInfo "" "" ""))
    = (mkInfoResponse (Stub.mkInfo "" "" ""),
       Some "invalid character looking for beginning of value") /\
  fst (FetchChart (pkg := Stub.sonolus) (lib := Stub.golib)
         network Stub.potato "ptlv-abc123" (Stub.disk 0))
    = (Stub.mkInfo "" "" "", None).
Proof.
  intros network. split; [reflexivity|].
  apply (FetchChart_decode_error_dropped (pkg := Stub.sonolus) (lib := Stub.golib)
           network Stub.potato "ptlv-abc123"
           (mkResponse 200 (mkStream [Byte.x3c; Byte.x68] None))
           (mkInfoResponse (Stub.mkInfo "" "" ""))
           "invalid character looking for beginning of value" (Stub.disk 0)).
  - reflexivity.
  - reflexivity.
  - reflexivity.
Defined.

Lemma FetchLevelData_round_trip_example :
  let d := [Byte.x01; Byte.x02; Byte.x03] in
  let served :=
    Stub.serve "https://ptlv.sevenc7c.com/data.gz"
      (mkResponse 200 (mkStream (Stub.gzip (Stub.marshal d)) None)) in
  let plain :=
    Stub.serve "https://ptlv.sevenc7c.com/data.gz"
      (mkResponse 200 (mkStream (Stub.marshal d) None)) in
  let markup :=
    Stub.serve "https://ptlv.sevenc7c.com/data.gz"
      (mkResponse 200 (mkStream (Stub.gzip [Byte.x3c; Byte.x68]) None)) in
  fst (FetchLevelData (pkg := Stub.sonolus) (lib := Stub.golib)
         served Stub.potato Stub.item (Stub.disk 0)) = (d, None) /\
  fst (FetchLevelData (pkg := Stub.sonolus) (lib := Stub.golib)
         plain Stub.potato Stub.item (Stub.disk 0))
    = ([], Some "譜面データの読み込みに失敗しました。(Loading chart data failed.) [gzip: invalid header]") /\
  fst (FetchLevelData (pkg := Stub.sonolus) (lib := Stub.golib)
         markup Stub.potato Stub.item (Stub.disk 0))
    = ([], Some "譜面データの読み込みに失敗しました。(Loading chart data failed.) [invalid character looking for beginning of value]").
Proof.
  intros d served plain markup.
  destruct (FetchLevelData_round_trip (pkg := Stub.sonolus) (lib := Stub.golib)
              served Stub.marshal Stub.gzip
              (fun b => eq_refl) (fun d => eq_refl)
              Stub.potato Stub.item "https://ptlv.sevenc7c.com/data.gz"
              (Stub.disk 0) eq_refl) as (Hround & _ & _).
  destruct (FetchLevelData_round_trip (pkg := Stub.sonolus) (lib := Stub.golib)
              plain Stub.marshal Stub.gzip
              (fun b => eq_refl) (fun d => eq_refl)
              Stub.potato Stub.item "https://ptlv.sevenc7c.com/data.gz"
              (Stub.disk 0) eq_refl) as (_ & Hbad & _).
  destruct (FetchLevelData_round_trip (pkg := Stub.sonolus) (lib := Stub.golib)
              markup Stub.marshal Stub.gzip
              (fun b => eq_refl) (fun d => eq_refl)
              Stub.potato Stub.item "https://ptlv.sevenc7c.com/data.gz"
              (Stub.disk 0) eq_refl) as (_ & _ & Hjson).
  split; [|split].
  - apply Hround. reflexivity.
  - apply (Hbad (mkResponse 200 (mkStream (Stub.marshal d) None))
             "gzip: invalid header"); reflexivity.
  - apply (Hjson (mkResponse 200 (mkStream (Stub.gzip [Byte.x3c; Byte.x68]) None))
             (mkStream [Byte.x3c; Byte.x68] None) []
             "invalid character looking for beginning of value"); reflexivity.
Defined.

(** C3, as stated, fails at a body with the magic bytes of gzip and a wrong
    trailer: it is not valid gzip, the reader opens it and delivers the data
    before it reports the trailer, the JSON value is complete by then, and
    [FetchLevelData] returns it with a nil error. *)
Lemma FetchLevelData_accepts_bad_trailer :
  let d := [Byte.x01] in
  let body := [Byte.x1f; Byte.x8b; Byte.x7b; Byte.x01; Byte.x7d; Byte.xff] in
  let network :=
    Stub.serve "https://ptlv.sevenc7c.com/data.gz"
      (mkResponse 200 (mkStream body None)) in
  let out := FetchLevelData (pkg := Stub.sonolus) (lib := Framed.golib)
               network Stub.potato Stub.item (Stub.disk 0) in
  Framed.gzip (Framed.marshal d)
    = [Byte.x1f; Byte.x8b; Byte.x7b; Byte.x01; Byte.x7d; Byte.x03] /\
  Framed.valid (Framed.gzip (Framed.marshal d)) = true /\
  Framed.valid body = false /\
  Framed.gunzip (mkStream body None)
    = inl (mkStream [Byte.x7b; Byte.x01; Byte.x7d] (Some "gzip: invalid checksum")) /\
  fst out = (d, None) /\
  ~ (exists e : error, snd (fst out) = Some e).
Proof.
  intros d body network out.
  assert (Hout : fst out = (d, None)) by (vm_compute; reflexivity).
  repeat split; try (vm_compute; reflexivity).
  intros [e He]. rewrite Hout in He. discriminate He.
Qed.

Lemma DownloadBackground_copies_body_example :
  let body := [Byte.x47; Byte.x49; Byte.x46; Byte.x38] in
  let network :=
    Stub.serve "https://ptlv.sevenc7c.com/background.png"
      (mkResponse 200 (mkStream body None)) in
  fst (DownloadBackground (pkg := Stub.sonolus)
         network Stub.potato Stub.item "/tmp" (Stub.disk 4)) = None /\
  files (fs (snd (DownloadBackground (pkg := Stub.sonolus)
                    network Stub.potato Stub.item "/tmp" (Stub.disk 4))))
    !! "/tmp/background.png" = Some body.
Proof.
  intros body network.
  eapply (DownloadBackground_copies_body (pkg := Stub.sonolus)
            network Stub.potato Stub.item "/tmp"
            "https://ptlv.sevenc7c.com/background.png" None
            (mkResponse 200 (mkStream body None)) (Stub.disk 4)).
  - reflexivity.
  - reflexivity.
  - reflexivity.
  - vm_compute. reflexivity.
  - vm_compute. lia.
Defined.

Lemma DownloadBackground_copy_result_unread_example :
  let body := mkStream [Byte.x47; Byte.x49; Byte.x46; Byte.x38] (Some "unexpected EOF") in
  let network :=
    Stub.serve "https://ptlv.sevenc7c.com/background.png" (mkResponse 200 body) in
  snd (fst (io_Copy (Some "/tmp/background.png") body (Stub.disk 4)))
    = Some "unexpected EOF" /\
  snd (fst (io_Copy (Some "/tmp/background.png") body (Stub.disk 3)))
    = Some "write /tmp/background.png: no space left on device" /\
  fst (DownloadBackground (pkg := Stub.sonolus)
         network Stub.potato Stub.item "/tmp" (Stub.disk 4)) = None /\
  fst (DownloadBackground (pkg := Stub.sonolus)
         network Stub.potato Stub.item "/tmp" (Stub.disk 3)) = None.
Proof.
  intros body network.
  split; [vm_compute; reflexivity|]. split; [vm_compute; reflexivity|].
  split.
  - erewrite (DownloadBackground_copy_result_unread (pkg := Stub.sonolus)
                network Stub.potato Stub.item "/tmp"
                "https://ptlv.sevenc7c.com/background.png" None
                (mkResponse 200 body) (Stub.disk 4)).
    + reflexivity.
    + reflexivity.
    + reflexivity.
    + reflexivity.
    + vm_compute. reflexivity.
    + vm_compute. reflexivity.
  - erewrite (DownloadBackground_copy_result_unread (pkg := Stub.sonolus)
                network Stub.potato Stub.item "/tmp"
                "https://ptlv.sevenc7c.com/background.png" None
                (mkResponse 200 body) (Stub.disk 3)).
    + reflexivity.
    + reflexivity.
    + reflexivity.
    + reflexivity.
    + vm_compute. reflexivity.
    + vm_compute. reflexivity.
Defined.





(** C7 at a status of 404.  The metadata, level-data and background
    operations return their not-found messages; [DownloadCover] returns the
    could-not-connect sentence with the status after it, the sentence that
    the operations return when the server was not reached at all.  Nothing
    is written by it: the world differs by the log only. *)
Theorem DownloadCover_status_404_message :
  let answer path :=
    Stub.serve ("https://ptlv.sevenc7c.com" ++ path)
      (mkResponse 404 (mkStream [] None)) in
  let w := Stub.disk 4 in
  fst (FetchChart (pkg := Stub.sonolus) (lib := Stub.golib)
         (answer "/sonolus/levels/ptlv-abc123") Stub.potato "ptlv-abc123" w)
    = (Stub.mkInfo "" "" "",
       Some "譜面が見つかりませんでした。(Unable to search chart.)") /\
  fst (FetchLevelData (pkg := Stub.sonolus) (lib := Stub.golib)
         (answer "/data.gz") Stub.potato Stub.item w)
    = ([], Some "譜面データが見つかりませんでした。(No chart data found.) [404]") /\
  fst (DownloadBackground (pkg := Stub.sonolus)
         (answer "/background.png") Stub.potato Stub.item "/tmp/out" w)
    = Some "背景が見つかりませんでした。(Background not found.) [404]" /\
  DownloadCover (pkg := Stub.sonolus) (lib := Stub.golib)
    (answer "/cover.png") Stub.potato Stub.item "/tmp/out" w
    = (Some "サーバーに接続できませんでした。(Could not connect to server.) [404]",
       logged w [EvGet "https://ptlv.sevenc7c.com/cover.png"; EvBodyClose]) /\
  fst (FetchLevelData (pkg := Stub.sonolus) (lib := Stub.golib)
         (answer "/elsewhere") Stub.potato Stub.item w)
    = ([], Some "サーバーに接続できませんでした。(Could not connect to server.) [dial tcp: no such host]").
Proof.
  intros answer w.
  repeat split; vm_compute; reflexivity.
Qed.

(** Every endpoint answers 404, or is not reached at all. *)
Lemma failed_request_keeps_fs_example :
  let serve404 path :=
    Stub.serve ("https://ptlv.sevenc7c.com" ++ path)
      (mkResponse 404 (mkStream [] None)) in
  let w := Fixture.used 4 in
  (exists e : error,
     fst (FetchChart (pkg := Stub.sonolus) (lib := Stub.golib)
            (serve404 "/elsewhere") Stub.potato "ptlv-abc123" w)
       = (Stub.mkInfo "" "" "", Some e) /\
     fs (snd (FetchChart (pkg := Stub.sonolus) (lib := Stub.golib)
                (serve404 "/elsewhere") Stub.potato "ptlv-abc123" w)) = fs w) /\
  (exists e : error,
     fst (FetchLevelData (pkg := Stub.sonolus) (lib := Stub.golib)
            (serve404 "/data.gz") Stub.potato Stub.item w) = ([], Some e) /\
     fs (snd (FetchLevelData (pkg := Stub.sonolus) (lib := Stub.golib)
                (serve404 "/data.gz") Stub.potato Stub.item w)) = fs w) /\
  (exists e : error,
     fst (DownloadCover (pkg := Stub.sonolus) (lib := Stub.golib)
            (serve404 "/cover.png") Stub.potato Stub.item "/tmp/out/a" w) = Some e /\
     fs (snd (DownloadCover (pkg := Stub.sonolus) (lib := Stub.golib)
                (serve404 "/cover.png") Stub.potato Stub.item "/tmp/out/a" w)) = fs w) /\
  (exists e : error,
     fst (DownloadBackground (pkg := Stub.sonolus)
            (serve404 "/background.png") Stub.potato Stub.item "/tmp/out" w) = Some e /\
     fs (snd (DownloadBackground (pkg := Stub.sonolus)
                (serve404 "/background.png") Stub.potato Stub.item "/tmp/out" w))
       = fs w).
Proof.
  intros serve404 w.
  split; [|split; [|split]].
  - destruct (failed_request_keeps_fs (pkg := Stub.sonolus) (lib := Stub.golib)
                (serve404 "/elsewhere") Stub.potato Stub.item "ptlv-abc123" "/tmp/out" w)
      as (Hmeta & _).
    apply Hmeta. vm_compute. exact I.
  - destruct (failed_request_keeps_fs (pkg := Stub.sonolus) (lib := Stub.golib)
                (serve404 "/data.gz") Stub.potato Stub.item "ptlv-abc123" "/tmp/out" w)
      as (_ & Hdata & _).
    apply (Hdata "https://ptlv.sevenc7c.com/data.gz"); [reflexivity|].
    vm_compute. lia.
  - destruct (failed_request_keeps_fs (pkg := Stub.sonolus) (lib := Stub.golib)
                (serve404 "/cover.png") Stub.potato Stub.item "ptlv-abc123" "/tmp/out/a" w)
      as (_ & _ & Hcover & _).
    apply (Hcover "https://ptlv.sevenc7c.com/cover.png"); [reflexivity|].
    vm_compute. lia.
  - destruct (failed_request_keeps_fs (pkg := Stub.sonolus) (lib := Stub.golib)
                (serve404 "/background.png") Stub.potato Stub.item "ptlv-abc123" "/tmp/out" w)
      as (_ & _ & _ & Hbackground).
    apply (Hbackground "https://ptlv.sevenc7c.com/background.png" None);
      [reflexivity|].
    vm_compute. lia.
Defined.

(** C6 at a background URL that [JoinUrl] refuses: [DownloadBackground]
    requests the URL it was handed all the same and reports what the request
    gave, where [FetchLevelData] and [DownloadCover] return the URL-parsing
    error without a request. *)
Lemma DownloadBackground_requests_malformed_url :
  let level := Stub.mkInfo ":data.gz" ":cover.png" ":background.png" in
  let network :=
    Stub.serve "https://ptlv.sevenc7c.com/background.png"
      (mkResponse 200 (mkStream [] None)) in
  let w := Stub.disk 4 in
  JoinUrl (Sonolus := Stub.sonolus) "https://ptlv.sevenc7c.com" ":background.png"
    = ("", Some "missing protocol scheme") /\
  DownloadBackground (pkg := Stub.sonolus) network Stub.potato level "/tmp" w
    = (Some "サーバーに接続できませんでした。(Could not connect to server.) [unsupported protocol scheme]",
       logged w [EvGet ""]) /\
  spec_kind "サーバーに接続できませんでした。(Could not connect to server.) [unsupported protocol scheme]"
    = Some ConnectivityError /\
  FetchLevelData (pkg := Stub.sonolus) (lib := Stub.golib) network Stub.potato level w
    = (([], Some "URLの解析に失敗しました。(URL parsing failed.) [missing protocol scheme]"), w) /\
  DownloadCover (pkg := Stub.sonolus) (lib := Stub.golib) network Stub.potato level "/tmp" w
    = (Some "URLの解析に失敗しました。(URL parsing failed.) [missing protocol scheme]", w).
Proof.
  intros level network w.
  repeat split; vm_compute; reflexivity.
Qed.

(** C8 at a destination that does not exist: [DownloadBackground] fails to
    create its file and leaves the file system as it was, where
    [DownloadCover] makes the directory with mode 0755 and writes its file. *)
Lemma DownloadBackground_missing_directory :
  let body := mkStream [Byte.x00; Byte.x64; Byte.x00; Byte.x32] None in
  let network path :=
    Stub.serve ("https://ptlv.sevenc7c.com" ++ path) (mkResponse 200 body) in
  let w := Stub.disk 4 in
  let background :=
    DownloadBackground (pkg := Stub.sonolus)
      (network "/background.png") Stub.potato Stub.item "/tmp/out" w in
  let cover :=
    DownloadCover (pkg := Stub.sonolus) (lib := Stub.golib)
      (network "/cover.png") Stub.potato Stub.item "/tmp/out" w in
  dirs (fs w) !! "/tmp/out" = None /\
  fst background
    = Some "ファイルの作成に失敗しました。(Failed to create file.) [open /tmp/out/background.png: no such file or directory]" /\
  fs (snd background) = fs w /\
  fst cover = None /\
  dirs (fs (snd cover)) !! "/tmp/out" = Some mode_0755 /\
  files (fs (snd cover)) !! "/tmp/out/cover.png"
    = Some [Byte.x89; Byte.x50; Byte.x4e; Byte.x47].
Proof.
  intros body network w background cover.
  repeat split; vm_compute; reflexivity.
Qed.

(** ** More on the file system *)

Lemma more_dirs_refl (mode : N) (fs0 : FS) : more_dirs mode fs0 fs0.
Proof. unfold more_dirs. repeat split; auto. Qed.

Lemma more_dirs_trans (mode : N) (fs0 fs1 fs2 : FS) :
  more_dirs mode fs0 fs1 -> more_dirs mode fs1 fs2 -> more_dirs mode fs0 fs2.
Proof.
  intros (Hf1 & Hr1 & Hu1 & Hk1 & Hn1) (Hf2 & Hr2 & Hu2 & Hk2 & Hn2).
  unfold more_dirs. repeat split; try congruence.
  - intros q m Hq. apply Hk2, Hk1, Hq.
  - intros q m Hq. destruct (Hn2 q m Hq) as [Hold | [Hnone ->]].
    + apply Hn1, Hold.
    + right. split; [|reflexivity].
      destruct (dirs fs0 !! q) as [m0|] eqn:Hq0; [|reflexivity].
      rewrite (Hk1 q m0 Hq0) in Hnone. discriminate.
Qed.

(** Making directories adds directories of the mode asked for less the
    mask, and touches nothing else. *)
Lemma os_Mkdir_more_dirs (p : string) (perm : N) (fs0 : FS) :
  more_dirs (N.ldiff perm (umask fs0)) fs0 (snd (os_Mkdir p perm fs0)).
Proof.
  unfold os_Mkdir.
  destruct (dirs fs0 !! p) eqn:Hp; [apply more_dirs_refl|].
  destruct (files fs0 !! p); [apply more_dirs_refl|].
  destruct (dirs fs0 !! parent_dir p) as [mode|]; [|apply more_dirs_refl].
  destruct (dir_writable mode); [|apply more_dirs_refl].
  unfold more_dirs. cbn [snd dirs files free umask]. repeat split.
  - intros q m Hq. rewrite lookup_insert_ne; [exact Hq|].
    intros ->. rewrite Hp in Hq. discriminate.
  - intros q m. rewrite lookup_insert.
    destruct (decide (p = q)) as [<-|Hne]; [|left; assumption].
    intros Hm. inversion Hm. right. split; [exact Hp | reflexivity].
Qed.

Lemma mkdir_more_dirs (rooted : bool) (relems : list string) (perm : N) (fs0 : FS) :
  more_dirs (N.ldiff perm (umask fs0)) fs0 (snd (mkdir rooted relems perm fs0)).
Proof.
  unfold mkdir. destruct relems as [|e rparent]; [apply more_dirs_refl|].
  destruct (walk fs0 rooted [] (rev rparent)) as [stack|]; [|apply more_dirs_refl].
  destruct (_ || _); [apply more_dirs_refl | apply os_Mkdir_more_dirs].
Qed.

Lemma mkdir_all_more_dirs (rooted : bool) (relems : list string) (perm : N) (fs0 : FS) :
  more_dirs (N.ldiff perm (umask fs0)) fs0 (snd (mkdir_all rooted relems perm fs0)).
Proof.
  induction relems as [|e rparent IH].
  - cbn [mkdir_all]. destruct (stat rooted [] fs0); try apply more_dirs_refl.
    cbn [mkdir]. destruct (stat rooted [] fs0); apply more_dirs_refl.
  - cbn [mkdir_all]. destruct (stat rooted (e :: rparent) fs0); try apply more_dirs_refl.
    assert (Hparent : more_dirs (N.ldiff perm (umask fs0)) fs0
              (snd (match rparent with
                    | [] => (None, fs0)
                    | _ :: _ => mkdir_all rooted rparent perm fs0
                    end))).
    { destruct rparent; [apply more_dirs_refl | exact IH]. }
    destruct (match rparent with
              | [] => (None, fs0)
              | _ :: _ => mkdir_all rooted rparent perm fs0
              end) as [[perr|] fs1]; cbn [snd] in Hparent; [exact Hparent|].
    pose proof (mkdir_more_dirs rooted (e :: rparent) perm fs1) as Hmk.
    assert (Hu : umask fs1 = umask fs0) by apply Hparent.
    rewrite Hu in Hmk.
    destruct (mkdir rooted (e :: rparent) perm fs1) as [[merr|] fs2]; cbn [snd] in Hmk.
    + destruct (stat rooted (e :: rparent) fs2); cbn [snd];
        exact (more_dirs_trans _ _ _ _ Hparent Hmk).
    + exact (more_dirs_trans _ _ _ _ Hparent Hmk).
Qed.

Lemma fs_MkdirAll_more_dirs (path : string) (perm : N) (fs0 : FS) :
  more_dirs (N.ldiff perm (umask fs0)) fs0 (snd (fs_MkdirAll path perm fs0)).
Proof.
  unfold fs_MkdirAll. destruct (String.eqb path ""); [apply more_dirs_refl|].
  apply mkdir_all_more_dirs.
Qed.

Lemma fs_MkdirAll_files (path : string) (perm : N) (fs0 : FS) :
  files (snd (fs_MkdirAll path perm fs0)) = files fs0.
Proof. apply fs_MkdirAll_more_dirs. Qed.

Lemma fs_MkdirAll_free (path : string) (perm : N) (fs0 : FS) :
  free (snd (fs_MkdirAll path perm fs0)) = free fs0.
Proof. apply fs_MkdirAll_more_dirs. Qed.

Lemma fs_MkdirAll_dirs_kept (path : string) (perm : N) (fs0 : FS) (q : string) (m : N) :
  dirs fs0 !! q = Some m ->
  dirs (snd (fs_MkdirAll path perm fs0)) !! q = Some m.
Proof. apply fs_MkdirAll_more_dirs. Qed.

Lemma fs_MkdirAll_dirs (path : string) (perm : N) (fs0 : FS) (q : string) (m : N) :
  dirs (snd (fs_MkdirAll path perm fs0)) !! q = Some m ->
  dirs fs0 !! q = Some m \/ (dirs fs0 !! q = None /\ m = N.ldiff perm (umask fs0)).
Proof. apply fs_MkdirAll_more_dirs. Qed.

(** [os.MkdirAll] at work.  Of [/tmp/out/../out2] it makes [/tmp/out] as
    well as [/tmp/out2]; it does not get through [/tmp/file], a regular file,
    and then makes nothing; under the mask [0077] what it makes has the mode
    [0700]; and the empty path is an error. *)
Lemma fs_MkdirAll_examples :
  let through := fs_MkdirAll "/tmp/out/../out2" mode_0755 (fs (Stub.disk 0)) in
  let stopped := fs_MkdirAll "/tmp/file/../out2" mode_0755 (fs (Fixture.blocked 0)) in
  let masked := fs_MkdirAll "/tmp/new/a" mode_0755 (fs (Fixture.shut 0)) in
  (fst through = None /\
   dirs (snd through) !! "/tmp/out" = Some mode_0755 /\
   dirs (snd through) !! "/tmp/out2" = Some mode_0755) /\
  (fst stopped = Some "mkdir: not a directory" /\
   snd stopped = fs (Fixture.blocked 0)) /\
  (fst masked = None /\
   dirs (snd masked) !! "/tmp/new" = Some (7 * 64)%N /\
   dirs (snd masked) !! "/tmp/new/a" = Some (7 * 64)%N) /\
  fst (fs_MkdirAll "" mode_0755 (fs (Stub.disk 0)))
    = Some "mkdir : no such file or directory".
Proof.
  intros through stopped masked.
  repeat split; vm_compute; reflexivity.
Qed.

Lemma fs_Create_other (name : string) (fs0 : FS) (q : string) :
  q <> path_Clean name ->
  files (snd (fs_Create name fs0)) !! q = files fs0 !! q.
Proof.
  intros Hne.
  destruct (fs_Create name fs0) as [[f [e|]] fs1] eqn:Hcreate; cbn [snd].
  - apply fs_Create_error in Hcreate. subst. reflexivity.
  - apply fs_Create_ok in Hcreate as [_ ->]. cbn [files].
    apply lookup_insert_ne. congruence.
Qed.

Lemma fs_Write_other (p : string) (b : list Byte.byte) (fs0 : FS) (q : string) :
  q <> p ->
  files (snd (fs_Write (Some p) b fs0)) !! q = files fs0 !! q.
Proof.
  intros Hne. unfold fs_Write. cbn [snd files].
  apply lookup_insert_ne. congruence.
Qed.

Lemma fs_Write_dirs (f : File) (b : list Byte.byte) (fs0 : FS) :
  dirs (snd (fs_Write f b fs0)) = dirs fs0.
Proof. destruct f; reflexivity. Qed.

(** What a write leaves in a freshly created file: as much of the data as
    the device had room for. *)
Lemma fs_Write_content (p : string) (b : list Byte.byte) (fs0 : FS) :
  files fs0 !! p = Some [] ->
  files (snd (fs_Write (Some p) b fs0)) !! p = Some (firstn (free fs0) b).
Proof.
  intros Hempty. unfold fs_Write. cbn [snd files].
  rewrite lookup_insert_eq, Hempty. cbn [default app]. f_equal.
  destruct (Nat.le_ge_cases (length b) (free fs0)) as [Hle|Hge].
  - rewrite Nat.min_l, firstn_all, firstn_all2 by assumption. reflexivity.
  - rewrite Nat.min_r by assumption. reflexivity.
Qed.

Lemma fs_Write_short (p : string) (b : list Byte.byte) (fs0 : FS) :
  free fs0 < length b ->
  fst (fs_Write (Some p) b fs0)
  = (free fs0, Some ("write " ++ p ++ ": no space left on device")).
Proof.
  intros Hshort. unfold fs_Write. cbn [fst].
  rewrite Nat.min_r by lia.
  destruct (Nat.ltb_spec (free fs0) (length b)); [reflexivity | lia].
Qed.

(** ** Effects and outcomes on every path *)

Section PipelineEffects.

Context {pkg : Sonolus} {lib : GoLib}.
Variable network : string -> Response + error.

(** X1.  Whatever the network answers and whatever the decoder makes of it,
    [FetchChart] performs one GET, of
    [https://{host}/sonolus/levels/{chartId}], closes the body exactly when a
    response came, and leaves the file system alone. *)
Theorem FetchChart_effects (source : Source) (chartId : string) (w : World) :
  snd (FetchChart network source chartId w) =
  logged w
    (EvGet ("https://" ++ Host source ++ "/sonolus/levels/" ++ chartId)
     :: match network ("https://" ++ Host source ++ "/sonolus/levels/" ++ chartId) with
        | inl _ => [EvBodyClose]
        | inr _ => []
        end).
Proof.
  unfold FetchChart. run.
  destruct (network _) as [resp|terr]; tidy; [|reflexivity].
  destruct (negb (StatusCode resp =? 200)%Z); tidy; [reflexivity|].
  destruct (json_Decode_InfoResponse _ _) as [chart derr]. tidy. reflexivity.
Qed.

(** X2.  [FetchChart] returns a nil error exactly when the endpoint answered
    200, and whenever it returns an error the LevelInfo beside it is the zero
    value. *)
Theorem FetchChart_nil_iff_200 (source : Source) (chartId : string) (w : World) :
  (snd (fst (FetchChart network source chartId w)) = None <->
   exists resp : Response,
     network ("https://" ++ Host source ++ "/sonolus/levels/" ++ chartId) = inl resp
     /\ StatusCode resp = 200%Z) /\
  (snd (fst (FetchChart network source chartId w)) <> None ->
   fst (fst (FetchChart network source chartId w)) = LevelInfo_zero).
Proof.
  unfold FetchChart. run.
  destruct (network _) as [resp|terr]; tidy.
  - destruct (Z.eqb_spec (StatusCode resp) 200) as [Heq|Hne]; cbn [negb]; tidy.
    + destruct (json_Decode_InfoResponse _ _) as [chart derr]. tidy. split.
      * split; [intros _; exists resp; split; [reflexivity | exact Heq] | reflexivity].
      * intros Hnot. contradiction Hnot. reflexivity.
    + split; [|reflexivity].
      split; [discriminate|]. intros (resp' & Hresp & Hstatus).
      inversion Hresp; subst resp'. contradiction.
  - split; [|reflexivity].
    split; [discriminate|]. intros (resp' & Hresp & _). discriminate Hresp.
Qed.

(** X3.  [FetchLevelData] performs no request when [JoinUrl] reports an
    error and one GET of the joined URL otherwise; it closes the body exactly
    when a response came and leaves the file system alone, whatever the
    status and the decoders' results. *)
Theorem FetchLevelData_effects (source : Source) (level : LevelInfo) (w : World) :
  snd (FetchLevelData network source level w) =
  match JoinUrl ("https://" ++ Host source) (Data_Url level) with
  | (_, Some _) => w
  | (url, None) =>
      logged w (EvGet url :: match network url with
                             | inl _ => [EvBodyClose]
                             | inr _ => []
                             end)
  end.
Proof.
  unfold FetchLevelData.
  destruct (JoinUrl _ _) as [url [jerr|]]; [reflexivity|]. run.
  destruct (network url) as [resp|terr]; tidy; [|reflexivity].
  destruct (negb (StatusCode resp =? 200)%Z); tidy; [reflexivity|].
  destruct (gzip_NewReader (Body resp)) as [gzipReader|gerr]; tidy; [|reflexivity].
  destruct (json_Decode_LevelData gzipReader LevelData_zero) as [data [derr|]];
    tidy; reflexivity.
Qed.

(** X4.  [FetchLevelData] returns a LevelData with a nil error exactly when
    the URL joined, the endpoint answered 200, the body opened as gzip and the
    JSON decoder filled that LevelData without error; whenever it returns an
    error the LevelData beside it is the zero value, also when the decoder had
    filled part of one. *)
Theorem FetchLevelData_nil_iff_decoded
    (source : Source) (level : LevelInfo) (w : World) :
  (forall d : LevelData,
     fst (FetchLevelData network source level w) = (d, None) <->
     exists (url : string) (resp : Response) (gzipReader : Stream),
       JoinUrl ("https://" ++ Host source) (Data_Url level) = (url, None) /\
       network url = inl resp /\
       StatusCode resp = 200%Z /\
       gzip_NewReader (Body resp) = inl gzipReader /\
       json_Decode_LevelData gzipReader LevelData_zero = (d, None)) /\
  (snd (fst (FetchLevelData network source level w)) <> None ->
   fst (fst (FetchLevelData network source level w)) = LevelData_zero).
Proof.
  unfold FetchLevelData.
  destruct (JoinUrl _ _) as [url [jerr|]].
  { split; [|reflexivity]. intros d. split; [discriminate|].
    intros (url' & resp & gz & Hjoin & _). discriminate Hjoin. }
  run. destruct (network url) as [resp|terr] eqn:Hnet; tidy.
  2:{ split; [|reflexivity]. intros d. split; [discriminate|].
      intros (url' & resp & gz & Hjoin & Hnet' & _).
      inversion Hjoin; subst url'. rewrite Hnet in Hnet'. discriminate Hnet'. }
  destruct (Z.eqb_spec (StatusCode resp) 200) as [Heq|Hne]; cbn [negb]; tidy.
  2:{ split; [|reflexivity]. intros d. split; [discriminate|].
      intros (url' & resp' & gz & Hjoin & Hnet' & Hstatus & _).
      inversion Hjoin; subst url'. rewrite Hnet in Hnet'.
      inversion Hnet'; subst resp'. contradiction. }
  destruct (gzip_NewReader (Body resp)) as [gzipReader|gerr] eqn:Hgzip; tidy.
  2:{ split; [|reflexivity]. intros d. split; [discriminate|].
      intros (url' & resp' & gz & Hjoin & Hnet' & _ & Hgzip' & _).
      inversion Hjoin; subst url'. rewrite Hnet in Hnet'.
      inversion Hnet'; subst resp'. rewrite Hgzip in Hgzip'. discriminate Hgzip'. }
  destruct (json_Decode_LevelData gzipReader LevelData_zero) as [data [derr|]]
    eqn:Hjson; tidy.
  - split; [|reflexivity]. intros d. split; [discriminate|].
    intros (url' & resp' & gz & Hjoin & Hnet' & _ & Hgzip' & Hjson').
    inversion Hjoin; subst url'. rewrite Hnet in Hnet'.
    inversion Hnet'; subst resp'. rewrite Hgzip in Hgzip'.
    inversion Hgzip'; subst gz. rewrite Hjson in Hjson'. discriminate Hjson'.
  - split; [|intros Hnot; contradiction Hnot; reflexivity].
    intros d. split.
    + intros Hd. inversion Hd; subst d.
      exists url, resp, gzipReader. repeat split; assumption.
    + intros (url' & resp' & gz & Hjoin & Hnet' & _ & Hgzip' & Hjson').
      inversion Hjoin; subst url'. rewrite Hnet in Hnet'.
      inversion Hnet'; subst resp'. rewrite Hgzip in Hgzip'.
      inversion Hgzip'; subst gz. rewrite Hjson in Hjson'.
      inversion Hjson'. reflexivity.
Qed.

(** *** The cover on its failing paths *)

Lemma kind_loading_jacket (e : error) :
  spec_kind ("ジャケットの読み込みに失敗しました。(Loading jacket failed.) [" ++ e ++ "]")
  = Some DecodeError.
Proof. reflexivity. Qed.

Lemma kind_create_file (e : error) :
  spec_kind ("ファイルの作成に失敗しました。(Failed to create file.) [" ++ e ++ "]")
  = Some FileIOError.
Proof. reflexivity. Qed.

Lemma kind_write_file (e : error) :
  spec_kind ("ファイルの書き込みに失敗しました。(Failed to write file.) [" ++ e ++ "]")
  = Some FileIOError.
Proof. reflexivity. Qed.

(** X5.  When the cover endpoint answers 200 and the body does not decode as
    an image, [DownloadCover] returns the loading-jacket-failed error (a
    DecodeError).  [os.MkdirAll] has run by then: the directories of
    [destPath] may have been made, but no file is created or changed, and
    the body is closed. *)
Theorem DownloadCover_decode_failure
    (source : Source) (level : LevelInfo) (destPath : string)
    (url : string) (resp : Response) (e : error) (w : World) :
  JoinUrl ("https://" ++ Host source) (Cover_Url level) = (url, None) ->
  network url = inl resp ->
  StatusCode resp = 200%Z ->
  image_Decode (Body resp) = inr e ->
  DownloadCover network source level destPath w =
    (Some ("ジャケットの読み込みに失敗しました。(Loading jacket failed.) [" ++ e ++ "]"),
     {| fs := snd (fs_MkdirAll destPath mode_0755 (fs w));
        log := log w ++ [EvGet url; EvMkdirAll destPath; EvBodyClose] |}) /\
  spec_kind ("ジャケットの読み込みに失敗しました。(Loading jacket failed.) [" ++ e ++ "]")
    = Some DecodeError /\
  files (snd (fs_MkdirAll destPath mode_0755 (fs w))) = files (fs w).
Proof.
  intros Hjoin Hnet Hstatus Hdecode.
  split; [|split; [apply kind_loading_jacket | apply fs_MkdirAll_files]].
  unfold DownloadCover. rewrite Hjoin. run.
  rewrite Hnet, (status_200 _ Hstatus). tidy.
  destruct (fs_MkdirAll destPath mode_0755 (fs w)) as [merr fs1]. tidy.
  rewrite Hdecode. tidy. reflexivity.
Qed.

(** X6.  When the cover decodes and [os.Create] fails, [DownloadCover]
    returns the failed-to-create-file error (a FileIOError) carrying the
    error of [os.Create]; an error of [os.MkdirAll] is never reported.  The
    file system is as [os.MkdirAll] left it, no file is created or changed,
    and the body is closed. *)
Theorem DownloadCover_create_failure
    (source : Source) (level : LevelInfo) (destPath : string)
    (url : string) (resp : Response) (imageData : Image)
    (f : File) (e : error) (fs2 : FS) (w : World) :
  JoinUrl ("https://" ++ Host source) (Cover_Url level) = (url, None) ->
  network url = inl resp ->
  StatusCode resp = 200%Z ->
  image_Decode (Body resp) = inl imageData ->
  fs_Create (path_Join destPath "cover.png")
    (snd (fs_MkdirAll destPath mode_0755 (fs w))) = ((f, Some e), fs2) ->
  DownloadCover network source level destPath w =
    (Some ("ファイルの作成に失敗しました。(Failed to create file.) [" ++ e ++ "]"),
     {| fs := snd (fs_MkdirAll destPath mode_0755 (fs w));
        log := log w ++ [EvGet url; EvMkdirAll destPath;
                         EvCreate (path_Join destPath "cover.png"); EvBodyClose] |}) /\
  spec_kind ("ファイルの作成に失敗しました。(Failed to create file.) [" ++ e ++ "]")
    = Some FileIOError /\
  files (snd (fs_MkdirAll destPath mode_0755 (fs w))) = files (fs w).
Proof.
  intros Hjoin Hnet Hstatus Hdecode Hcreate.
  split; [|split; [apply kind_create_file | apply fs_MkdirAll_files]].
  pose proof (fs_Create_error _ _ _ _ _ Hcreate) as ->.
  unfold DownloadCover. rewrite Hjoin. run.
  rewrite Hnet, (status_200 _ Hstatus). tidy.
  destruct (fs_MkdirAll destPath mode_0755 (fs w)) as [merr fs1]. tidy.
  cbn [snd] in Hcreate. rewrite Hdecode. tidy. rewrite Hcreate. tidy.
  reflexivity.
Qed.

(** X7.  When the file is created and the device has less room than the
    encoding takes, [DownloadCover] returns the failed-to-write-file error (a
    FileIOError) and leaves [cover.png] holding only the first bytes of the
    encoding, as many as there was room for; the file and then the body are
    closed. *)
Theorem DownloadCover_short_write
    (source : Source) (level : LevelInfo) (destPath : string)
    (url : string) (resp : Response) (imageData : Image) (w : World)
    (f : File) (fs2 : FS) :
  let blank := image_NewRGBA (image_Rect 0 0 512 512) in
  let newImage :=
    ApproxBiLinear_Scale blank (RGBA_Bounds blank)
      imageData (Image_Bounds imageData) Over in
  let key := path_Clean (path_Join destPath "cover.png") in
  JoinUrl ("https://" ++ Host source) (Cover_Url level) = (url, None) ->
  network url = inl resp ->
  StatusCode resp = 200%Z ->
  image_Decode (Body resp) = inl imageData ->
  fs_Create (path_Join destPath "cover.png")
    (snd (fs_MkdirAll destPath mode_0755 (fs w))) = ((f, None), fs2) ->
  free fs2 < length (png_bytes newImage) ->
  fst (DownloadCover network source level destPath w) =
    Some ("ファイルの書き込みに失敗しました。(Failed to write file.) ["
          ++ ("write " ++ key ++ ": no space left on device") ++ "]") /\
  files (fs (snd (DownloadCover network source level destPath w))) !! key
    = Some (firstn (free fs2) (png_bytes newImage)) /\
  log (snd (DownloadCover network source level destPath w))
    = (log w ++ [EvGet url; EvMkdirAll destPath;
                 EvCreate (path_Join destPath "cover.png");
                 EvFileClose (Some key); EvBodyClose])%list.
Proof.
  intros blank newImage key Hjoin Hnet Hstatus Hdecode Hcreate Hshort.
  destruct (fs_MkdirAll destPath mode_0755 (fs w)) as [merr fs1] eqn:Hmkdir.
  cbn [snd] in Hcreate.
  destruct (fs_Create_ok _ _ _ _ Hcreate) as [-> Hfs2]. fold key in Hcreate, Hfs2.
  assert (Hempty : files fs2 !! key = Some [])
    by (rewrite Hfs2; apply lookup_insert_eq).
  pose proof (fs_Write_short key (png_bytes newImage) fs2 Hshort) as Hwrite.
  pose proof (fs_Write_content key (png_bytes newImage) fs2 Hempty) as Hcontent.
  unfold DownloadCover. rewrite Hjoin. run.
  rewrite Hnet, (status_200 _ Hstatus). tidy. rewrite Hmkdir. tidy.
  rewrite Hdecode. fold blank. fold newImage. tidy. rewrite Hcreate.
  rewrite png_Encode_writes
    by (change (Rect newImage) with (image_Rect 0 0 512 512);
        split; reflexivity).
  run. fold key.
  destruct (fs_Write (Some key) (png_bytes newImage) fs2) as [[n werr] fs3].
  cbn [fst snd] in Hwrite, Hcontent. inversion Hwrite; subst n werr. tidy.
  split; [reflexivity|]. split; [exact Hcontent | reflexivity].
Qed.

(** *** What the cover download touches *)

Lemma DownloadCover_fs_cases
    (source : Source) (level : LevelInfo) (destPath : string) (w : World) :
  let fs1 := snd (fs_MkdirAll destPath mode_0755 (fs w)) in
  let fs2 := snd (fs_Create (path_Join destPath "cover.png") fs1) in
  let key := path_Clean (path_Join destPath "cover.png") in
  fs (snd (DownloadCover network source level destPath w)) = fs w \/
  fs (snd (DownloadCover network source level destPath w)) = fs1 \/
  fs (snd (DownloadCover network source level destPath w)) = fs2 \/
  exists b : list Byte.byte,
    fs (snd (DownloadCover network source level destPath w))
    = snd (fs_Write (Some key) b fs2).
Proof.
  intros fs1 fs2 key. unfold DownloadCover.
  destruct (JoinUrl _ _) as [url [jerr|]]; [left; reflexivity|]. run.
  destruct (network url) as [resp|terr]; tidy; [|left; reflexivity].
  destruct (negb (StatusCode resp =? 200)%Z); tidy; [left; reflexivity|].
  subst fs2 fs1.
  destruct (fs_MkdirAll destPath mode_0755 (fs w)) as [merr fs1]. tidy.
  destruct (image_Decode (Body resp)) as [imageData|derr]; tidy;
    [|right; left; reflexivity].
  destruct (fs_Create (path_Join destPath "cover.png") fs1)
    as [[f [cerr|]] fs2] eqn:Hcreate; tidy; [right; right; left; reflexivity|].
  destruct (fs_Create_ok _ _ _ _ Hcreate) as [-> _]. fold key.
  unfold png_Encode.
  destruct (_ || _); run; [right; right; left; reflexivity|].
  right. right. right. eexists.
  destruct (fs_Write (Some key) _ fs2) as [[n werr] fs3] eqn:Hwrite. tidy.
  apply (f_equal snd) in Hwrite. cbn [snd] in Hwrite.
  destruct werr; tidy; symmetry; exact Hwrite.
Qed.

(** X8.  On every path, [DownloadCover] changes no file other than
    [cover.png] under [destPath], keeps every directory that exists with the
    mode it has, and makes directories only with the mode 0755 less the bits
    of the file-mode creation mask. *)
Theorem DownloadCover_footprint
    (source : Source) (level : LevelInfo) (destPath : string) (w : World) :
  let after := fs (snd (DownloadCover network source level destPath w)) in
  (forall q : string,
     q <> path_Clean (path_Join destPath "cover.png") ->
     files after !! q = files (fs w) !! q) /\
  (forall (q : string) (m : N),
     dirs (fs w) !! q = Some m -> dirs after !! q = Some m) /\
  (forall (q : string) (m : N),
     dirs after !! q = Some m ->
     dirs (fs w) !! q = Some m \/
     (dirs (fs w) !! q = None /\ m = N.ldiff mode_0755 (umask (fs w)))).
Proof.
  intros after.
  pose proof (fs_MkdirAll_files destPath mode_0755 (fs w)) as Hfiles1.
  pose proof (fs_MkdirAll_dirs_kept destPath mode_0755 (fs w)) as Hkept1.
  pose proof (fs_MkdirAll_dirs destPath mode_0755 (fs w)) as Hnew1.
  pose proof (fs_Create_other (path_Join destPath "cover.png")
                (snd (fs_MkdirAll destPath mode_0755 (fs w)))) as Hfiles2.
  pose proof (fs_Create_dirs (path_Join destPath "cover.png")
                (snd (fs_MkdirAll destPath mode_0755 (fs w)))) as Hdirs2.
  destruct (DownloadCover_fs_cases source level destPath w)
    as [Hfs | [Hfs | [Hfs | [b Hfs]]]]; subst after; rewrite Hfs.
  - repeat split; auto.
  - repeat split; [intros q _; rewrite Hfiles1; reflexivity | exact Hkept1 | exact Hnew1].
  - rewrite Hdirs2. repeat split; [|exact Hkept1 | exact Hnew1].
    intros q Hq. rewrite Hfiles2, Hfiles1 by exact Hq. reflexivity.
  - rewrite fs_Write_dirs, Hdirs2. repeat split; [|exact Hkept1 | exact Hnew1].
    intros q Hq. rewrite fs_Write_other, Hfiles2, Hfiles1 by exact Hq.
    reflexivity.
Qed.

(** X9.  Once the cover endpoint has answered, whatever the status,
    [DownloadCover] logs after the request, in this order and each only when
    the one before went through: making the directory, creating the file,
    closing the file; then it closes the body, on every path.  A file that
    was created is closed: the creation is the last step only when it
    failed. *)
Theorem DownloadCover_releases
    (source : Source) (level : LevelInfo) (destPath : string)
    (url : string) (resp : Response) (w : World) :
  JoinUrl ("https://" ++ Host source) (Cover_Url level) = (url, None) ->
  network url = inl resp ->
  let name := path_Join destPath "cover.png" in
  let made := snd (fs_MkdirAll destPath mode_0755 (fs w)) in
  exists mid : list Event,
    log (snd (DownloadCover network source level destPath w))
    = (log w ++ EvGet url :: mid ++ [EvBodyClose])%list /\
    (mid = [] \/
     mid = [EvMkdirAll destPath] \/
     (mid = [EvMkdirAll destPath; EvCreate name] /\
      snd (fst (fs_Create name made)) <> None) \/
     (mid = [EvMkdirAll destPath; EvCreate name; EvFileClose (Some (path_Clean name))] /\
      snd (fst (fs_Create name made)) = None)).
Proof.
  intros Hjoin Hnet name made. unfold DownloadCover. rewrite Hjoin. run.
  rewrite Hnet. tidy.
  destruct (negb (StatusCode resp =? 200)%Z); tidy.
  { exists []. split; [reflexivity | left; reflexivity]. }
  subst made.
  destruct (fs_MkdirAll destPath mode_0755 (fs w)) as [merr fs1]. tidy.
  destruct (image_Decode (Body resp)) as [imageData|derr]; tidy.
  2:{ exists [EvMkdirAll destPath]. split; [reflexivity | right; left; reflexivity]. }
  fold name.
  destruct (fs_Create name fs1) as [[f [cerr|]] fs2] eqn:Hcreate; tidy.
  { exists [EvMkdirAll destPath; EvCreate name].
    split; [reflexivity|]. right. right. left. split; [reflexivity | discriminate]. }
  destruct (fs_Create_ok _ _ _ _ Hcreate) as [-> _].
  exists [EvMkdirAll destPath; EvCreate name; EvFileClose (Some (path_Clean name))].
  split; [|right; right; right; split; reflexivity].
  destruct (png_Encode _ _ _) as [[perr|] w3] eqn:Hencode; tidy.
  all: revert Hencode; unfold png_Encode; destruct (_ || _); run;
    [|destruct (fs_Write _ _ fs2) as [[n werr] fs3]; tidy];
    intros Hencode; inversion Hencode; subst; tidy; reflexivity.
Qed.

(** *** The background on its other paths *)

(** X10.  When the background endpoint answers 200 and [os.Create] fails,
    [DownloadBackground] returns the failed-to-create-file error (a
    FileIOError) carrying the error of [os.Create], leaves the file system as
    it was and closes the body. *)
Theorem DownloadBackground_create_failure
    (source : Source) (level : LevelInfo) (destPath : string)
    (url : string) (jerr : option error) (resp : Response)
    (f : File) (e : error) (fs1 : FS) (w : World) :
  JoinUrl ("https://" ++ Host source) (UseBackground_Item_Image_Url level)
    = (url, jerr) ->
  network url = inl resp ->
  StatusCode resp = 200%Z ->
  fs_Create (path_Join destPath "background.png") (fs w) = ((f, Some e), fs1) ->
  DownloadBackground network source level destPath w =
    (Some ("ファイルの作成に失敗しました。(Failed to create file.) [" ++ e ++ "]"),
     logged w [EvGet url; EvCreate (path_Join destPath "background.png");
               EvBodyClose]) /\
  spec_kind ("ファイルの作成に失敗しました。(Failed to create file.) [" ++ e ++ "]")
    = Some FileIOError.
Proof.
  intros Hjoin Hnet Hstatus Hcreate. split; [|apply kind_create_file].
  pose proof (fs_Create_error _ _ _ _ _ Hcreate) as ->.
  unfold DownloadBackground. rewrite Hjoin. run.
  rewrite Hnet, (status_200 _ Hstatus). tidy. rewrite Hcreate. tidy.
  reflexivity.
Qed.

(** X11.  When the background endpoint answers 200 and the file is created,
    [background.png] ends up holding the bytes the body delivered, cut to
    what the device had room for, and [DownloadBackground] returns nil: a
    body that was cut short, by the device or by the network, is not
    reported. *)
Theorem DownloadBackground_truncates
    (source : Source) (level : LevelInfo) (destPath : string)
    (url : string) (jerr : option error) (resp : Response) (w : World)
    (f : File) (fs1 : FS) :
  JoinUrl ("https://" ++ Host source) (UseBackground_Item_Image_Url level)
    = (url, jerr) ->
  network url = inl resp ->
  StatusCode resp = 200%Z ->
  fs_Create (path_Join destPath "background.png") (fs w) = ((f, None), fs1) ->
  fst (DownloadBackground network source level destPath w) = None /\
  files (fs (snd (DownloadBackground network source level destPath w)))
    !! path_Clean (path_Join destPath "background.png")
  = Some (firstn (free fs1) (bytes (Body resp))).
Proof.
  intros Hjoin Hnet Hstatus Hcreate.
  destruct (fs_Create_ok _ _ _ _ Hcreate) as [-> Hfs1].
  assert (Hempty : files fs1 !! path_Clean (path_Join destPath "background.png")
                   = Some [])
    by (rewrite Hfs1; apply lookup_insert_eq).
  pose proof (fs_Write_content _ (bytes (Body resp)) fs1 Hempty) as Hcontent.
  unfold DownloadBackground. rewrite Hjoin. run.
  rewrite Hnet, (status_200 _ Hstatus). tidy. rewrite Hcreate. tidy.
  destruct (fs_Write _ (bytes (Body resp)) fs1) as [[n werr] fs2].
  cbn [snd] in Hcontent.
  destruct werr; tidy; split; [reflexivity | exact Hcontent | reflexivity | exact Hcontent].
Qed.

Lemma DownloadBackground_fs_cases
    (source : Source) (level : LevelInfo) (destPath : string) (w : World) :
  let fs1 := snd (fs_Create (path_Join destPath "background.png") (fs w)) in
  let key := path_Clean (path_Join destPath "background.png") in
  fs (snd (DownloadBackground network source level destPath w)) = fs w \/
  fs (snd (DownloadBackground network source level destPath w)) = fs1 \/
  exists b : list Byte.byte,
    fs (snd (DownloadBackground network source level destPath w))
    = snd (fs_Write (Some key) b fs1).
Proof.
  intros fs1 key. unfold DownloadBackground.
  destruct (JoinUrl _ _) as [url jerr]. run.
  destruct (network url) as [resp|terr]; tidy; [|left; reflexivity].
  destruct (negb (StatusCode resp =? 200)%Z); tidy; [left; reflexivity|].
  subst fs1.
  destruct (fs_Create (path_Join destPath "background.png") (fs w))
    as [[f [cerr|]] fs1] eqn:Hcreate; tidy; [right; left; reflexivity|].
  destruct (fs_Create_ok _ _ _ _ Hcreate) as [-> _]. fold key.
  right. right. exists (bytes (Body resp)).
  destruct (fs_Write (Some key) _ fs1) as [[n werr] fs2]. tidy.
  destruct werr; tidy; reflexivity.
Qed.

(** X12.  On every path, [DownloadBackground] changes no file other than
    [background.png] under [destPath] and leaves the directories exactly as
    they were. *)
Theorem DownloadBackground_footprint
    (source : Source) (level : LevelInfo) (destPath : string) (w : World) :
  let after := fs (snd (DownloadBackground network source level destPath w)) in
  (forall q : string,
     q <> path_Clean (path_Join destPath "background.png") ->
     files after !! q = files (fs w) !! q) /\
  dirs after = dirs (fs w).
Proof.
  intros after.
  pose proof (fs_Create_other (path_Join destPath "background.png") (fs w))
    as Hfiles1.
  pose proof (fs_Create_dirs (path_Join destPath "background.png") (fs w))
    as Hdirs1.
  destruct (DownloadBackground_fs_cases source level destPath w)
    as [Hfs | [Hfs | [b Hfs]]]; subst after; rewrite Hfs.
  - split; auto.
  - split; [exact Hfiles1 | exact Hdirs1].
  - rewrite fs_Write_dirs. split; [|exact Hdirs1].
    intros q Hq. rewrite fs_Write_other, Hfiles1 by exact Hq. reflexivity.
Qed.

(** X13.  Once the background endpoint has answered, whatever the status,
    [DownloadBackground] logs after the request the creation of the file and
    its closing, the closing exactly when the creation succeeded, and then
    closes the body, on every path; the request is made also when [JoinUrl]
    reported an error. *)
Theorem DownloadBackground_releases
    (source : Source) (level : LevelInfo) (destPath : string)
    (url : string) (jerr : option error) (resp : Response) (w : World) :
  JoinUrl ("https://" ++ Host source) (UseBackground_Item_Image_Url level)
    = (url, jerr) ->
  network url = inl resp ->
  let name := path_Join destPath "background.png" in
  exists mid : list Event,
    log (snd (DownloadBackground network source level destPath w))
    = (log w ++ EvGet url :: mid ++ [EvBodyClose])%list /\
    (mid = [] \/
     (mid = [EvCreate name] /\ snd (fst (fs_Create name (fs w))) <> None) \/
     (mid = [EvCreate name; EvFileClose (Some (path_Clean name))] /\
      snd (fst (fs_Create name (fs w))) = None)).
Proof.
  intros Hjoin Hnet name. unfold DownloadBackground. rewrite Hjoin. run.
  rewrite Hnet. tidy.
  destruct (negb (StatusCode resp =? 200)%Z); tidy.
  { exists []. split; [reflexivity | left; reflexivity]. }
  fold name.
  destruct (fs_Create name (fs w)) as [[f [cerr|]] fs1] eqn:Hcreate; tidy.
  { exists [EvCreate name]. split; [reflexivity|].
    right. left. split; [reflexivity | discriminate]. }
  destruct (fs_Create_ok _ _ _ _ Hcreate) as [-> _].
  exists [EvCreate name; EvFileClose (Some (path_Clean name))].
  split; [|right; right; split; reflexivity].
  destruct (fs_Write _ (bytes (Body resp)) fs1) as [[n werr] fs2]. tidy.
  destruct werr; tidy; reflexivity.
Qed.

(** *** Resolving, then fetching *)

(** X14.  [FetchChart] does not look at the Source it is given beyond its
    host: called with what [DetectChartSource] returns, it requests the
    metadata from the host of the registered entry for an identifier with a
    registered prefix, and for any other identifier it still performs a
    request, of [https:///sonolus/levels/{chartId}], with an empty host. *)
Theorem FetchChart_after_DetectChartSource (chartId : string) (w : World) :
  (forall pre src,
     In (pre, src) registered_sources ->
     strings_HasPrefix chartId pre = true ->
     exists rest : list Event,
       log (snd (FetchChart network (fst (DetectChartSource chartId)) chartId w))
       = (log w ++ EvGet ("https://" ++ Host src ++ "/sonolus/levels/" ++ chartId)
                   :: rest)%list) /\
  ((forall pre src,
      In (pre, src) registered_sources ->
      strings_HasPrefix chartId pre = false) ->
   exists rest : list Event,
     log (snd (FetchChart network (fst (DetectChartSource chartId)) chartId w))
     = (log w ++ EvGet ("https:///sonolus/levels/" ++ chartId) :: rest)%list).
Proof.
  assert (Hlog : forall source,
    exists rest : list Event,
      log (snd (FetchChart network source chartId w))
      = (log w ++ EvGet ("https://" ++ Host source ++ "/sonolus/levels/" ++ chartId)
                  :: rest)%list).
  { intros source. unfold FetchChart. run.
    destruct (network _) as [resp|terr]; tidy; [|eexists; reflexivity].
    destruct (negb (StatusCode resp =? 200)%Z); tidy; [eexists; reflexivity|].
    destruct (json_Decode_InfoResponse _ _) as [chart derr]. tidy.
    eexists; reflexivity. }
  split.
  - intros pre src Hin Hpre. simpl in Hin.
    destruct Hin as [E | [E | []]]; inversion E; subst; clear E.
    + unfold DetectChartSource. rewrite Hpre. cbn [String.eqb Id fst]. apply Hlog.
    + unfold DetectChartSource.
      rewrite (HasPrefix_ptlv_chcy _ Hpre), Hpre. cbn [String.eqb Id fst].
      apply Hlog.
  - intros Hnone. unfold DetectChartSource.
    rewrite (Hnone "ptlv-" _ (or_introl eq_refl)).
    rewrite (Hnone "chcy-" _ (or_intror (or_introl eq_refl))).
    cbn [Source_zero Id String.eqb fst].
    destruct (Hlog {| Id := chartId; Name := ""; Color := 0; Host := "" |})
      as [rest Hrest].
    exists rest. exact Hrest.
Qed.

End PipelineEffects.

(** X15.  No identifier carries two registered prefixes: the entries of the
    table that match an identifier are all the same entry, so the order in
    which [DetectChartSource] tests them never decides its result. *)
Theorem registered_prefixes_exclusive
    (chartId : string) (pre1 pre2 : string) (src1 src2 : Source) :
  In (pre1, src1) registered_sources ->
  In (pre2, src2) registered_sources ->
  strings_HasPrefix chartId pre1 = true ->
  strings_HasPrefix chartId pre2 = true ->
  (pre1, src1) = (pre2, src2).
Proof.
  intros Hin1 Hin2 Hpre1 Hpre2. simpl in Hin1, Hin2.
  destruct Hin1 as [E1 | [E1 | []]]; destruct Hin2 as [E2 | [E2 | []]];
    inversion E1; inversion E2; subst; try reflexivity.
  - rewrite (HasPrefix_ptlv_chcy _ Hpre2) in Hpre1. discriminate.
  - rewrite (HasPrefix_ptlv_chcy _ Hpre1) in Hpre2. discriminate.
Qed.

(** ** The further statements on concrete inputs *)

Lemma FetchChart_nil_iff_200_example :
  let url := "https://ptlv.sevenc7c.com/sonolus/levels/ptlv-abc123" in
  let ok := Stub.serve url (mkResponse 200 (mkStream [Byte.x7b] None)) in
  let gone := Stub.serve url (mkResponse 410 (mkStream [Byte.x7b] None)) in
  snd (fst (FetchChart (pkg := Stub.sonolus) (lib := Stub.golib)
              ok Stub.potato "ptlv-abc123" (Stub.disk 0))) = None /\
  fst (fst (FetchChart (pkg := Stub.sonolus) (lib := Stub.golib)
              gone Stub.potato "ptlv-abc123" (Stub.disk 0))) = Stub.mkInfo "" "" "".
Proof.
  intros url ok gone. split.
  - apply (FetchChart_nil_iff_200 (pkg := Stub.sonolus) (lib := Stub.golib)
             ok Stub.potato "ptlv-abc123" (Stub.disk 0)).
    exists (mkResponse 200 (mkStream [Byte.x7b] None)).
    split; reflexivity.
  - apply (FetchChart_nil_iff_200 (pkg := Stub.sonolus) (lib := Stub.golib)
             gone Stub.potato "ptlv-abc123" (Stub.disk 0)).
    vm_compute. discriminate.
Defined.

Lemma FetchLevelData_nil_iff_decoded_example :
  let d := [Byte.x01; Byte.x02] in
  let ok := Stub.serve "https://ptlv.sevenc7c.com/data.gz"
              (mkResponse 200 (mkStream (Stub.gzip (Stub.marshal d)) None)) in
  let cut := Stub.serve "https://ptlv.sevenc7c.com/data.gz"
               (mkResponse 200 (mkStream (Stub.gzip (Stub.marshal d))
                                  (Some "unexpected EOF"))) in
  fst (FetchLevelData (pkg := Stub.sonolus) (lib := Stub.golib)
         ok Stub.potato Stub.item (Stub.disk 0)) = (d, None) /\
  fst (fst (FetchLevelData (pkg := Stub.sonolus) (lib := Stub.golib)
              cut Stub.potato Stub.item (Stub.disk 0))) = [].
Proof.
  intros d ok cut. split.
  - apply (FetchLevelData_nil_iff_decoded (pkg := Stub.sonolus) (lib := Stub.golib)
             ok Stub.potato Stub.item (Stub.disk 0)).
    exists "https://ptlv.sevenc7c.com/data.gz",
      (mkResponse 200 (mkStream (Stub.gzip (Stub.marshal d)) None)),
      (mkStream (Stub.marshal d) None).
    repeat split; reflexivity.
  - apply (FetchLevelData_nil_iff_decoded (pkg := Stub.sonolus) (lib := Stub.golib)
             cut Stub.potato Stub.item (Stub.disk 0)).
    vm_compute. discriminate.
Defined.

(** The body is not an image and [/tmp/out] does not exist: the download
    fails, and [/tmp/out] has been made. *)
Lemma DownloadCover_decode_failure_example :
  let network := Fixture.cover (mkStream [Byte.x3c] None) in
  let out := DownloadCover (pkg := Stub.sonolus) (lib := Stub.golib)
               network Stub.potato Stub.item "/tmp/out" (Stub.disk 4) in
  fst out = Some "ジャケットの読み込みに失敗しました。(Loading jacket failed.) [image: unknown format]" /\
  dirs (fs (Stub.disk 4)) !! "/tmp/out" = None /\
  dirs (fs (snd out)) !! "/tmp/out" = Some mode_0755 /\
  files (fs (snd out)) = files (fs (Stub.disk 4)).
Proof.
  intros network out.
  destruct (DownloadCover_decode_failure (pkg := Stub.sonolus) (lib := Stub.golib)
              network Stub.potato Stub.item "/tmp/out"
              "https://ptlv.sevenc7c.com/cover.png"
              (mkResponse 200 (mkStream [Byte.x3c] None))
              "image: unknown format" (Stub.disk 4)
              eq_refl eq_refl eq_refl eq_refl) as (Hrun & _ & Hfiles).
  subst out. rewrite Hrun. cbn [fst snd fs].
  split; [reflexivity|]. split; [vm_compute; reflexivity|].
  split; [vm_compute; reflexivity | exact Hfiles].
Defined.

(** A directory sits where the cover is to be written. *)
Lemma DownloadCover_create_failure_example :
  let network := Fixture.cover Fixture.picture in
  let out := DownloadCover (pkg := Stub.sonolus) (lib := Stub.golib)
               network Stub.potato Stub.item "/tmp/out" (Fixture.cluttered 4) in
  fst out = Some "ファイルの作成に失敗しました。(Failed to create file.) [open /tmp/out/cover.png: is a directory]" /\
  fs (snd out) = fs (Fixture.cluttered 4).
Proof.
  intros network out.
  edestruct (DownloadCover_create_failure (pkg := Stub.sonolus) (lib := Stub.golib)
               network Stub.potato Stub.item "/tmp/out"
               "https://ptlv.sevenc7c.com/cover.png"
               (mkResponse 200 Fixture.picture) (image_Rect 0 0 100 50)
               None "open /tmp/out/cover.png: is a directory"
               (fs (Fixture.cluttered 4)) (Fixture.cluttered 4))
    as (Hrun & _ & _).
  - reflexivity.
  - reflexivity.
  - reflexivity.
  - reflexivity.
  - vm_compute. reflexivity.
  - subst out. rewrite Hrun. cbn [fst snd fs].
    split; [reflexivity | vm_compute; reflexivity].
Defined.

(** Room for three of the four bytes of the encoding. *)
Lemma DownloadCover_short_write_example :
  let network := Fixture.cover Fixture.picture in
  let out := DownloadCover (pkg := Stub.sonolus) (lib := Stub.golib)
               network Stub.potato Stub.item "/tmp/out" (Stub.disk 3) in
  fst out = Some "ファイルの書き込みに失敗しました。(Failed to write file.) [write /tmp/out/cover.png: no space left on device]" /\
  files (fs (snd out)) !! "/tmp/out/cover.png"
    = Some [Byte.x89; Byte.x50; Byte.x4e].
Proof.
  intros network out.
  edestruct (DownloadCover_short_write (pkg := Stub.sonolus) (lib := Stub.golib)
               network Stub.potato Stub.item "/tmp/out"
               "https://ptlv.sevenc7c.com/cover.png"
               (mkResponse 200 Fixture.picture) (image_Rect 0 0 100 50)
               (Stub.disk 3))
    as (Herr & Hfile & _).
  - reflexivity.
  - reflexivity.
  - reflexivity.
  - reflexivity.
  - vm_compute. reflexivity.
  - vm_compute. lia.
  - split; [exact Herr | exact Hfile].
Defined.

(** A cover written beside a file of notes. *)
Lemma DownloadCover_footprint_example :
  let network := Fixture.cover Fixture.picture in
  let out := DownloadCover (pkg := Stub.sonolus) (lib := Stub.golib)
               network Stub.potato Stub.item "/tmp/out" (Fixture.used 4) in
  let shut := DownloadCover (pkg := Stub.sonolus) (lib := Stub.golib)
                network Stub.potato Stub.item "/tmp/new/a" (Fixture.shut 4) in
  "/tmp/out/notes.txt" <> path_Clean (path_Join "/tmp/out" "cover.png") /\
  files (fs (snd out)) !! "/tmp/out/notes.txt" = Some [Byte.x68; Byte.x69] /\
  dirs (fs (snd out)) !! "/tmp/out" = Some mode_0755 /\
  dirs (fs (snd shut)) !! "/tmp/new/a" = Some (7 * 64)%N /\
  (7 * 64)%N = N.ldiff mode_0755 (umask (fs (Fixture.shut 4))).
Proof.
  intros network out shut.
  assert (Hother : "/tmp/out/notes.txt" <> path_Clean (path_Join "/tmp/out" "cover.png"))
    by (vm_compute; discriminate).
  destruct (DownloadCover_footprint (pkg := Stub.sonolus) (lib := Stub.golib)
              network Stub.potato Stub.item "/tmp/out" (Fixture.used 4))
    as (Hfiles & Hkept & _).
  destruct (DownloadCover_footprint (pkg := Stub.sonolus) (lib := Stub.golib)
              network Stub.potato Stub.item "/tmp/new/a" (Fixture.shut 4))
    as (_ & _ & Hnew).
  assert (Hmade : dirs (fs (snd shut)) !! "/tmp/new/a" = Some (7 * 64)%N)
    by (vm_compute; reflexivity).
  split; [exact Hother|]. split; [|split; [|split]].
  - subst out. rewrite (Hfiles _ Hother). vm_compute. reflexivity.
  - apply Hkept. vm_compute. reflexivity.
  - exact Hmade.
  - destruct (Hnew "/tmp/new/a" (7 * 64)%N Hmade) as [Hold | [_ Hmode]].
    + vm_compute in Hold. discriminate Hold.
    + exact Hmode.
Defined.

Lemma DownloadCover_releases_example :
  let network := Fixture.cover Fixture.picture in
  exists mid : list Event,
    log (snd (DownloadCover (pkg := Stub.sonolus) (lib := Stub.golib)
                network Stub.potato Stub.item "/tmp/out" (Stub.disk 3)))
    = (log (Stub.disk 3)
       ++ EvGet "https://ptlv.sevenc7c.com/cover.png" :: mid ++ [EvBodyClose])%list /\
    (mid = [] \/
     mid = [EvMkdirAll "/tmp/out"] \/
     (mid = [EvMkdirAll "/tmp/out"; EvCreate (path_Join "/tmp/out" "cover.png")] /\
      snd (fst (fs_Create (path_Join "/tmp/out" "cover.png")
                  (snd (fs_MkdirAll "/tmp/out" mode_0755 (fs (Stub.disk 3))))))
      <> None) \/
     (mid = [EvMkdirAll "/tmp/out"; EvCreate (path_Join "/tmp/out" "cover.png");
             EvFileClose (Some (path_Clean (path_Join "/tmp/out" "cover.png")))] /\
      snd (fst (fs_Create (path_Join "/tmp/out" "cover.png")
                  (snd (fs_MkdirAll "/tmp/out" mode_0755 (fs (Stub.disk 3))))))
      = None)).
Proof.
  intros network.
  apply (DownloadCover_releases (pkg := Stub.sonolus) (lib := Stub.golib)
           network Stub.potato Stub.item "/tmp/out"
           "https://ptlv.sevenc7c.com/cover.png"
           (mkResponse 200 Fixture.picture) (Stub.disk 3)).
  - reflexivity.
  - reflexivity.
Defined.

(** The destination does not exist. *)
Lemma DownloadBackground_create_failure_example :
  let network := Fixture.background Fixture.picture in
  DownloadBackground (pkg := Stub.sonolus)
    network Stub.potato Stub.item "/tmp/out" (Stub.disk 4)
  = (Some "ファイルの作成に失敗しました。(Failed to create file.) [open /tmp/out/background.png: no such file or directory]",
     logged (Stub.disk 4)
       [EvGet "https://ptlv.sevenc7c.com/background.png";
        EvCreate (path_Join "/tmp/out" "background.png"); EvBodyClose]).
Proof.
  intros network.
  apply (DownloadBackground_create_failure (pkg := Stub.sonolus)
           network Stub.potato Stub.item "/tmp/out"
           "https://ptlv.sevenc7c.com/background.png" None
           (mkResponse 200 Fixture.picture)
           None "open /tmp/out/background.png: no such file or directory"
           (fs (Stub.disk 4)) (Stub.disk 4)).
  - reflexivity.
  - reflexivity.
  - reflexivity.
  - vm_compute. reflexivity.
Defined.

(** Room for three of the four bytes of the body. *)
Lemma DownloadBackground_truncates_example :
  let network := Fixture.background Fixture.picture in
  let out := DownloadBackground (pkg := Stub.sonolus)
               network Stub.potato Stub.item "/tmp" (Stub.disk 3) in
  fst out = None /\
  files (fs (snd out)) !! "/tmp/background.png"
    = Some [Byte.x00; Byte.x64; Byte.x00].
Proof.
  intros network out.
  apply (DownloadBackground_truncates (pkg := Stub.sonolus)
           network Stub.potato Stub.item "/tmp"
           "https://ptlv.sevenc7c.com/background.png" None
           (mkResponse 200 Fixture.picture) (Stub.disk 3)
           (fst (fst (fs_Create "/tmp/background.png" (fs (Stub.disk 3)))))
           (snd (fs_Create "/tmp/background.png" (fs (Stub.disk 3))))).
  - reflexivity.
  - reflexivity.
  - reflexivity.
  - vm_compute. reflexivity.
Defined.

Lemma DownloadBackground_footprint_example :
  let network := Fixture.background Fixture.picture in
  let out := DownloadBackground (pkg := Stub.sonolus)
               network Stub.potato Stub.item "/tmp/out" (Fixture.used 4) in
  "/tmp/out/notes.txt" <> path_Clean (path_Join "/tmp/out" "background.png") /\
  files (fs (snd out)) !! "/tmp/out/notes.txt" = Some [Byte.x68; Byte.x69].
Proof.
  intros network out.
  assert (Hother : "/tmp/out/notes.txt"
                   <> path_Clean (path_Join "/tmp/out" "background.png"))
    by (vm_compute; discriminate).
  destruct (DownloadBackground_footprint (pkg := Stub.sonolus)
              network Stub.potato Stub.item "/tmp/out" (Fixture.used 4))
    as (Hfiles & _).
  split; [exact Hother|].
  subst out. rewrite (Hfiles _ Hother). vm_compute. reflexivity.
Defined.

Lemma DownloadBackground_releases_example :
  let network := Fixture.background Fixture.picture in
  exists mid : list Event,
    log (snd (DownloadBackground (pkg := Stub.sonolus)
                network Stub.potato Stub.item "/tmp" (Stub.disk 3)))
    = (log (Stub.disk 3)
       ++ EvGet "https://ptlv.sevenc7c.com/background.png" :: mid ++ [EvBodyClose])%list /\
    (mid = [] \/
     (mid = [EvCreate (path_Join "/tmp" "background.png")] /\
      snd (fst (fs_Create (path_Join "/tmp" "background.png") (fs (Stub.disk 3))))
      <> None) \/
     (mid = [EvCreate (path_Join "/tmp" "background.png");
             EvFileClose (Some (path_Clean (path_Join "/tmp" "background.png")))] /\
      snd (fst (fs_Create (path_Join "/tmp" "background.png") (fs (Stub.disk 3))))
      = None)).
Proof.
  intros network.
  apply (DownloadBackground_releases (pkg := Stub.sonolus)
           network Stub.potato Stub.item "/tmp"
           "https://ptlv.sevenc7c.com/background.png" None
           (mkResponse 200 Fixture.picture) (Stub.disk 3)).
  - reflexivity.
  - reflexivity.
Defined.

Lemma FetchChart_after_DetectChartSource_example :
  let network := Stub.serve "https://ptlv.sevenc7c.com/sonolus/levels/ptlv-abc123"
                   (mkResponse 200 (mkStream [Byte.x7b] None)) in
  (exists rest : list Event,
     log (snd (FetchChart (pkg := Stub.sonolus) (lib := Stub.golib) network
                 (fst (DetectChartSource "ptlv-abc123")) "ptlv-abc123" (Stub.disk 0)))
     = (log (Stub.disk 0)
        ++ EvGet "https://ptlv.sevenc7c.com/sonolus/levels/ptlv-abc123" :: rest)%list) /\
  (exists rest : list Event,
     log (snd (FetchChart (pkg := Stub.sonolus) (lib := Stub.golib) network
                 (fst (DetectChartSource "xyz-000")) "xyz-000" (Stub.disk 0)))
     = (log (Stub.disk 0) ++ EvGet "https:///sonolus/levels/xyz-000" :: rest)%list).
Proof.
  intros network. split.
  - destruct (FetchChart_after_DetectChartSource (pkg := Stub.sonolus) (lib := Stub.golib)
                network "ptlv-abc123" (Stub.disk 0)) as [Hreg _].
    apply (Hreg "ptlv-" Stub.potato); [left; reflexivity | reflexivity].
  - destruct (FetchChart_after_DetectChartSource (pkg := Stub.sonolus) (lib := Stub.golib)
                network "xyz-000" (Stub.disk 0)) as [_ Hunk].
    apply Hunk. intros pre src Hin. simpl in Hin.
    destruct Hin as [E | [E | []]]; inversion E; reflexivity.
Defined.

Lemma registered_prefixes_exclusive_example :
  let cyanvas := {| Id := "chart_cyanvas"; Name := "Chart Cyanvas";
                    Color := 0x83ccd2; Host := "cc.sevenc7c.com" |} in
  In ("chcy-", cyanvas) registered_sources /\
  strings_HasPrefix "chcy-0001" "chcy-" = true /\
  ("chcy-", cyanvas) = ("chcy-", cyanvas).
Proof.
  intros cyanvas.
  assert (Hin : In ("chcy-", cyanvas) registered_sources)
    by (right; left; reflexivity).
  split; [exact Hin|]. split; [reflexivity|].
  apply (registered_prefixes_exclusive "chcy-0001" "chcy-" "chcy-" cyanvas cyanvas
           Hin Hin); reflexivity.
Defined.

(** ** Cleaned paths and the directories of a path *)

Lemma split_slash_nonempty (s : string) : split_slash s <> [].
Proof.
  destruct s as [|c rest]; cbn [split_slash]; [discriminate|].
  destruct (Ascii.eqb c "/"); [discriminate|].
  destruct (split_slash rest); discriminate.
Qed.

Lemma split_slash_app (a b : string) :
  split_slash (a ++ "/" ++ b) = (split_slash a ++ split_slash b)%list.
Proof.
  change (a ++ "/" ++ b) with (a ++ String "/"%char b).
  induction a as [|c a IH].
  - reflexivity.
  - change (String c a ++ String "/"%char b) with (String c (a ++ String "/"%char b)).
    cbn [split_slash]. rewrite IH.
    destruct (Ascii.eqb c "/"); [reflexivity|].
    destruct (split_slash a) as [|e es] eqn:Hsplit; [|reflexivity].
    contradiction (split_slash_nonempty a).
Qed.

Lemma split_slash_element (e : string) :
  no_slash e = true -> split_slash e = [e].
Proof.
  induction e as [|c e IH]; [reflexivity|].
  cbn [no_slash split_slash]. intros Hfree.
  apply andb_true_iff in Hfree as [Hc Hrest].
  apply negb_true_iff in Hc. rewrite Hc, (IH Hrest). reflexivity.
Qed.

Lemma split_slash_no_slash (s : string) :
  forallb no_slash (split_slash s) = true.
Proof.
  induction s as [|c s IH]; [reflexivity|].
  cbn [split_slash]. destruct (Ascii.eqb c "/") eqn:Hc; [exact IH|].
  destruct (split_slash s) as [|e es]; cbn [forallb no_slash] in *;
    rewrite Hc; [reflexivity | exact IH].
Qed.

Lemma split_slash_concat (es : list string) :
  es <> [] ->
  forallb no_slash es = true ->
  split_slash (String.concat "/" es) = es.
Proof.
  induction es as [|e es IH]; [contradiction|].
  intros _ Hfree. cbn [forallb] in Hfree.
  apply andb_true_iff in Hfree as [He Hes].
  destruct es as [|e' es].
  - apply split_slash_element, He.
  - change (String.concat "/" (e :: e' :: es))
      with (e ++ "/" ++ String.concat "/" (e' :: es)).
    rewrite split_slash_app, (split_slash_element e He), IH by (discriminate || exact Hes).
    reflexivity.
Qed.

Lemma plain_spec (e : string) :
  plain e = true ->
  String.eqb e "" = false /\ String.eqb e "." = false /\
  String.eqb e ".." = false /\ no_slash e = true.
Proof.
  unfold plain. intros Hplain.
  apply andb_true_iff in Hplain as [Hplain Hfree].
  apply andb_true_iff in Hplain as [Hplain Hdd].
  apply andb_true_iff in Hplain as [He Hd].
  rewrite negb_true_iff in He, Hd, Hdd. auto.
Qed.

Lemma forallb_plain_cleaned (rooted : bool) (es : list string) :
  forallb plain es = true -> cleaned rooted es = true.
Proof.
  destruct es as [|e es]; [reflexivity|]. intros Hall.
  cbn [cleaned]. pose proof Hall as Hall'. cbn [forallb] in Hall'.
  apply andb_true_iff in Hall' as [He _].
  destruct (plain_spec e He) as (_ & _ & -> & _). exact Hall.
Qed.

Lemma cleaned_snoc_plain (rooted : bool) (es : list string) (e : string) :
  cleaned rooted es = true -> plain e = true -> cleaned rooted (es ++ [e]) = true.
Proof.
  intros Hes He. induction es as [|x es IH].
  - apply forallb_plain_cleaned. cbn [app forallb]. rewrite He. reflexivity.
  - cbn [app cleaned] in *. destruct (String.eqb x "..").
    + apply andb_true_iff in Hes as [Hr Hes]. rewrite Hr, (IH Hes). reflexivity.
    + change (x :: (es ++ [e])%list) with ((x :: es) ++ [e])%list.
      rewrite forallb_app, Hes. cbn [forallb]. rewrite He. reflexivity.
Qed.

Lemma cleaned_app_l (rooted : bool) (l l' : list string) :
  cleaned rooted (l ++ l') = true -> cleaned rooted l = true.
Proof.
  induction l as [|x l IH]; [reflexivity|].
  cbn [app cleaned]. destruct (String.eqb x "..").
  - intros Hc. apply andb_true_iff in Hc as [Hr Hc].
    rewrite Hr, (IH Hc). reflexivity.
  - change (x :: (l ++ l')%list) with ((x :: l) ++ l')%list.
    rewrite forallb_app. intros Hc. apply andb_true_iff in Hc as [Hc _]. exact Hc.
Qed.

Lemma cleaned_before_dotdot (rooted : bool) (l l' : list string) :
  cleaned rooted (l ++ ".." :: l') = true ->
  rooted = false /\ Forall (fun e => e = "..") l.
Proof.
  induction l as [|x l IH]; cbn [app cleaned].
  - cbn [String.eqb Ascii.eqb Bool.eqb]. intros Hc.
    apply andb_true_iff in Hc as [Hr _]. apply negb_true_iff in Hr. auto.
  - destruct (String.eqb_spec x "..") as [->|Hne].
    + intros Hc. apply andb_true_iff in Hc as [_ Hc].
      destruct (IH Hc) as [Hr Hall]. auto.
    + change (x :: (l ++ ".." :: l')%list) with ((x :: l) ++ ".." :: l')%list.
      rewrite forallb_app. cbn [forallb]. intros Hc.
      apply andb_true_iff in Hc as [_ Hc]. apply andb_true_iff in Hc as [Hc _].
      discriminate Hc.
Qed.

Lemma cleaned_dots (l : list string) :
  Forall (fun e => e = "..") l -> cleaned false l = true.
Proof.
  induction 1 as [|x l -> _ IH]; [reflexivity|].
  cbn [cleaned String.eqb Ascii.eqb Bool.eqb negb andb]. exact IH.
Qed.

Lemma cleaned_cons (rooted : bool) (e : string) (l : list string) :
  cleaned rooted (e :: l) = true -> e = ".." \/ plain e = true.
Proof.
  cbn [cleaned]. destruct (String.eqb_spec e ".."); [auto|].
  cbn [forallb]. intros Hc. apply andb_true_iff in Hc as [He _]. auto.
Qed.

Lemma cleaned_tail (rooted : bool) (e : string) (l : list string) :
  cleaned rooted (e :: l) = true -> cleaned rooted l = true.
Proof.
  cbn [cleaned]. destruct (String.eqb e "..").
  - intros Hc. apply andb_true_iff in Hc as [_ Hc]. exact Hc.
  - cbn [forallb]. intros Hc. apply andb_true_iff in Hc as [_ Hc].
    apply forallb_plain_cleaned, Hc.
Qed.

Lemma cleaned_no_slash (rooted : bool) (l : list string) :
  cleaned rooted l = true -> forallb no_slash l = true.
Proof.
  induction l as [|e l IH]; [reflexivity|]. intros Hc.
  cbn [forallb]. rewrite (IH (cleaned_tail _ _ _ Hc)), andb_true_r.
  destruct (cleaned_cons _ _ _ Hc) as [->|He]; [reflexivity|].
  apply plain_spec in He. tauto.
Qed.

(** A cleaned list of elements is what [clean_elems] returns for it. *)
Lemma clean_elems_cleaned (rooted : bool) (es stack : list string) :
  cleaned rooted (rev stack ++ es) = true ->
  clean_elems rooted stack es = (rev stack ++ es)%list.
Proof.
  revert stack. induction es as [|e es IH]; intros stack Hc.
  - cbn [clean_elems]. rewrite app_nil_r. reflexivity.
  - assert (Hnext : (rev stack ++ e :: es = rev (e :: stack) ++ es)%list)
      by (cbn [rev]; rewrite <- app_assoc; reflexivity).
    assert (He : e = ".." \/ plain e = true).
    { clear IH Hnext. induction (rev stack) as [|x l IHl].
      - exact (cleaned_cons _ _ _ Hc).
      - apply IHl. exact (cleaned_tail _ _ _ Hc). }
    cbn [clean_elems]. destruct He as [->|He].
    + cbn [String.eqb Ascii.eqb Bool.eqb orb].
      destruct (cleaned_before_dotdot _ _ _ Hc) as [-> Hdots].
      destruct stack as [|top below].
      * rewrite Hnext in Hc |- *. apply IH, Hc.
      * cbn [rev] in Hdots. apply Forall_app in Hdots as [_ Htop].
        inversion Htop as [|? ? -> _]; subst.
        cbn [String.eqb Ascii.eqb Bool.eqb].
        rewrite Hnext in Hc |- *. apply IH, Hc.
    + destruct (plain_spec e He) as (-> & -> & -> & _). cbn [orb].
      rewrite Hnext in Hc |- *. apply IH, Hc.
Qed.

(** What [clean_elems] returns is cleaned. *)
Lemma clean_elems_is_cleaned (rooted : bool) (es stack : list string) :
  cleaned rooted (rev stack) = true ->
  forallb no_slash es = true ->
  cleaned rooted (clean_elems rooted stack es) = true.
Proof.
  revert stack. induction es as [|e es IH]; intros stack Hstack Hfree.
  - exact Hstack.
  - cbn [forallb] in Hfree. apply andb_true_iff in Hfree as [He Hes].
    cbn [clean_elems].
    destruct (String.eqb_spec e "") as [->|Hempty]; [apply IH; assumption|].
    destruct (String.eqb_spec e ".") as [->|Hdot]; [apply IH; assumption|].
    cbn [orb]. destruct (String.eqb_spec e "..") as [->|Hdd].
    + destruct stack as [|top below].
      * destruct rooted; [apply IH; assumption|]. apply IH; [reflexivity | exact Hes].
      * destruct (String.eqb_spec top "..") as [->|Htop].
        -- apply IH; [|exact Hes]. cbn [rev] in *.
           destruct (cleaned_before_dotdot _ _ _ Hstack) as [-> Hdots].
           apply cleaned_dots. rewrite <- app_assoc.
           apply Forall_app. split; [exact Hdots|]. repeat constructor.
        -- apply IH; [|exact Hes]. cbn [rev] in Hstack.
           exact (cleaned_app_l _ _ _ Hstack).
    + apply IH; [|exact Hes]. cbn [rev]. apply cleaned_snoc_plain; [exact Hstack|].
      unfold plain.
      apply String.eqb_neq in Hempty, Hdot, Hdd. rewrite Hempty, Hdot, Hdd, He.
      reflexivity.
Qed.

Lemma clean_elems_snoc (rooted : bool) (es stack : list string) (n : string) :
  plain n = true ->
  clean_elems rooted stack (es ++ [n]) = (clean_elems rooted stack es ++ [n])%list.
Proof.
  intros Hn. destruct (plain_spec n Hn) as (Hn1 & Hn2 & Hn3 & _).
  revert stack. induction es as [|e es IH]; intros stack.
  - cbn [app clean_elems]. rewrite Hn1, Hn2, Hn3. reflexivity.
  - cbn [app clean_elems].
    destruct (String.eqb e "" || String.eqb e "."); [apply IH|].
    destruct (String.eqb e "..").
    + destruct stack as [|top below]; [destruct rooted; apply IH|].
      destruct (String.eqb top ".."); apply IH.
    + apply IH.
Qed.

Lemma path_elems_is_cleaned (p : string) :
  cleaned (is_rooted p) (path_elems p) = true.
Proof.
  unfold path_elems. apply clean_elems_is_cleaned; [reflexivity|].
  apply split_slash_no_slash.
Qed.

Lemma is_rooted_element (e rest : string) :
  e = ".." \/ plain e = true -> is_rooted (e ++ rest) = false.
Proof.
  unfold is_rooted. intros [->|He]; [reflexivity|].
  destruct (plain_spec e He) as (Hne & _ & _ & Hfree).
  destruct e as [|c e]; [discriminate Hne|].
  cbn [no_slash] in Hfree. apply andb_true_iff in Hfree as [Hc _].
  apply negb_true_iff, Ascii.eqb_neq in Hc.
  change (String c e ++ rest) with (String c (e ++ rest)).
  rewrite prefix_String. destruct (ascii_dec "/"%char c) as [E|_]; [|reflexivity].
  congruence.
Qed.

Lemma concat_cons (e : string) (es : list string) :
  exists rest : string, String.concat "/" (e :: es) = e ++ rest.
Proof.
  destruct es as [|e' es].
  - exists "". cbn [String.concat]. induction e as [|c e IH]; [reflexivity|].
    change (String c e ++ "") with (String c (e ++ "")). rewrite <- IH. reflexivity.
  - eexists. reflexivity.
Qed.

Lemma prefix_empty (s : string) : String.prefix "" s = true.
Proof. destruct s; reflexivity. Qed.

Lemma is_rooted_slash (rest : string) : is_rooted ("/" ++ rest) = true.
Proof. destruct rest; reflexivity. Qed.

Lemma is_rooted_render (rooted : bool) (es : list string) :
  cleaned rooted es = true -> is_rooted (render rooted es) = rooted.
Proof.
  intros Hc. unfold render. destruct rooted; [apply is_rooted_slash|].
  destruct es as [|e es]; [reflexivity|].
  destruct (concat_cons e es) as [rest ->].
  apply is_rooted_element. exact (cleaned_cons _ _ _ Hc).
Qed.

Lemma path_elems_render (rooted : bool) (es : list string) :
  cleaned rooted es = true -> path_elems (render rooted es) = es.
Proof.
  intros Hc. unfold path_elems. rewrite (is_rooted_render _ _ Hc).
  unfold render. destruct rooted.
  - change ("/" ++ String.concat "/" es) with ("" ++ "/" ++ String.concat "/" es).
    rewrite split_slash_app. cbn [split_slash app clean_elems String.eqb orb].
    destruct es as [|e es]; [reflexivity|].
    rewrite split_slash_concat
      by (discriminate || exact (cleaned_no_slash _ _ Hc)).
    apply (clean_elems_cleaned true (e :: es) []). exact Hc.
  - destruct es as [|e es]; [reflexivity|].
    rewrite split_slash_concat
      by (discriminate || exact (cleaned_no_slash _ _ Hc)).
    apply (clean_elems_cleaned false (e :: es) []). exact Hc.
Qed.

(** [path.Clean] returns a path that it leaves as it is. *)
Lemma path_Clean_idempotent (p : string) :
  path_Clean (path_Clean p) = path_Clean p.
Proof.
  assert (Hroot : is_rooted (path_Clean p) = is_rooted p)
    by apply is_rooted_render, path_elems_is_cleaned.
  assert (Helems : path_elems (path_Clean p) = path_elems p)
    by apply path_elems_render, path_elems_is_cleaned.
  unfold path_Clean at 1. rewrite Hroot, Helems. reflexivity.
Qed.

Lemma path_elems_slash (d n : string) :
  d <> "" -> plain n = true ->
  is_rooted (d ++ "/" ++ n) = is_rooted d /\
  path_elems (d ++ "/" ++ n) = (path_elems d ++ [n])%list.
Proof.
  intros Hd Hn.
  assert (Hroot : is_rooted (d ++ "/" ++ n) = is_rooted d).
  { destruct d as [|c d]; [contradiction|]. unfold is_rooted.
    change (String c d ++ "/" ++ n) with (String c (d ++ "/" ++ n)).
    rewrite !prefix_String. destruct (ascii_dec "/"%char c); [|reflexivity].
    rewrite !prefix_empty. reflexivity. }
  split; [exact Hroot|].
  unfold path_elems. rewrite Hroot, split_slash_app.
  destruct (plain_spec n Hn) as (_ & _ & _ & Hfree).
  rewrite (split_slash_element n Hfree). apply clean_elems_snoc, Hn.
Qed.

Lemma path_Join_render (d n : string) :
  plain n = true ->
  path_Join d n = render (is_rooted d) (path_elems d ++ [n]).
Proof.
  intros Hn. destruct (plain_spec n Hn) as (Hne & _ & _ & Hfree).
  unfold path_Join. rewrite Hne. destruct (String.eqb_spec d "") as [->|Hd].
  - pose proof (is_rooted_element n "" (or_intror Hn)) as Hroot.
    assert (Hn0 : n ++ "" = n).
    { clear. induction n as [|c n IH]; [reflexivity|].
      change (String c n ++ "") with (String c (n ++ "")). rewrite IH. reflexivity. }
    rewrite Hn0 in Hroot. unfold path_Clean, path_elems. rewrite Hroot.
    rewrite (split_slash_element n Hfree).
    pose proof (clean_elems_snoc false [] [] n Hn) as Hsnoc.
    cbn [app] in Hsnoc. rewrite Hsnoc. reflexivity.
  - unfold path_Clean.
    destruct (path_elems_slash d n Hd Hn) as [-> ->]. reflexivity.
Qed.

(** Joining a plain name to a directory gives a cleaned path, a file of that
    directory. *)
Lemma path_Join_plain (d n : string) :
  plain n = true ->
  path_Clean (path_Join d n) = path_Join d n /\
  parent_dir (path_Join d n) = path_Clean d /\
  path_elems (path_Join d n) = (path_elems d ++ [n])%list /\
  is_rooted (path_Join d n) = is_rooted d.
Proof.
  intros Hn. rewrite (path_Join_render d n Hn).
  assert (Hc : cleaned (is_rooted d) (path_elems d ++ [n]) = true)
    by (apply cleaned_snoc_plain; [apply path_elems_is_cleaned | exact Hn]).
  pose proof (is_rooted_render _ _ Hc) as Hroot.
  pose proof (path_elems_render _ _ Hc) as Helems.
  repeat split; [| |exact Helems | exact Hroot].
  - unfold path_Clean. rewrite Hroot, Helems. reflexivity.
  - unfold parent_dir. rewrite Hroot, Helems, removelast_last. reflexivity.
Qed.

(** Where a walk ends is where the elements lead, step by step, and it is a
    directory. *)
Lemma walk_spec (fs0 : FS) (rooted : bool) (elems stack s : list string) :
  walk fs0 rooted stack elems = Some s ->
  s = fold_left (step rooted) elems stack /\
  is_Some (dirs fs0 !! render rooted (rev s)).
Proof.
  revert stack. induction elems as [|e rest IH]; intros stack; cbn [walk fold_left].
  - destruct (dirs fs0 !! render rooted (rev stack)) as [m|] eqn:Hd; [|discriminate].
    intros Hs. inversion Hs; subst s. split; [reflexivity|]. exists m. exact Hd.
  - destruct (dirs fs0 !! render rooted (rev stack)); [|discriminate].
    apply IH.
Qed.

(** A walk goes through when there are more directories. *)
Lemma walk_mono (fs0 fs1 : FS) (rooted : bool) (elems stack s : list string) :
  (forall (q : string) (m : N), dirs fs0 !! q = Some m -> dirs fs1 !! q = Some m) ->
  walk fs0 rooted stack elems = Some s ->
  walk fs1 rooted stack elems = Some s.
Proof.
  intros Hkept. revert stack.
  induction elems as [|e rest IH]; intros stack; cbn [walk].
  - destruct (dirs fs0 !! render rooted (rev stack)) as [m|] eqn:Hd; [|discriminate].
    rewrite (Hkept _ _ Hd). trivial.
  - destruct (dirs fs0 !! render rooted (rev stack)) as [m|] eqn:Hd; [|discriminate].
    rewrite (Hkept _ _ Hd). apply IH.
Qed.

Lemma stat_IsDir (rooted : bool) (relems : list string) (fs0 : FS) :
  stat rooted relems fs0 = IsDir ->
  is_Some (dirs fs0 !! render rooted (rev (fold_left (step rooted) (rev relems) []))).
Proof.
  unfold stat. destruct relems as [|e rparent].
  - cbn [rev fold_left]. destruct (dirs fs0 !! render rooted []) as [m|]; [|discriminate].
    intros _. exists m. reflexivity.
  - destruct (walk fs0 rooted [] (rev rparent)) as [stack|] eqn:Hwalk; [|discriminate].
    apply walk_spec in Hwalk as [-> _].
    cbn [rev]. rewrite fold_left_app. cbn [fold_left].
    destruct (dirs fs0 !! _) as [m|]; [intros _; exists m; reflexivity|].
    destruct (files fs0 !! _); discriminate.
Qed.

Lemma mkdir_made (rooted : bool) (relems : list string) (perm : N) (fs0 fs1 : FS) :
  mkdir rooted relems perm fs0 = (None, fs1) ->
  stat rooted relems fs1 = IsDir.
Proof.
  unfold mkdir, stat. destruct relems as [|e rparent]; [discriminate|].
  destruct (walk fs0 rooted [] (rev rparent)) as [stack|] eqn:Hwalk; [|discriminate].
  destruct (String.eqb e ".") eqn:Hdot; [discriminate|].
  destruct (String.eqb e "..") eqn:Hdots; [discriminate|]. cbn [orb].
  intros Hmk.
  pose proof (os_Mkdir_more_dirs (render rooted (rev (e :: stack))) perm fs0) as Hmore.
  rewrite Hmk in Hmore. cbn [snd] in Hmore.
  destruct Hmore as (_ & _ & _ & Hkept & _).
  rewrite (walk_mono _ _ _ _ _ _ Hkept Hwalk).
  unfold step. rewrite Hdot, Hdots.
  revert Hmk. unfold os_Mkdir.
  destruct (dirs fs0 !! render rooted (rev (e :: stack))); [discriminate|].
  destruct (files fs0 !! render rooted (rev (e :: stack))); [discriminate|].
  destruct (dirs fs0 !! parent_dir _) as [mode|]; [|discriminate].
  destruct (dir_writable mode); [|discriminate].
  intros Hmk. inversion Hmk. cbn [dirs]. rewrite lookup_insert_eq. reflexivity.
Qed.

Lemma mkdir_all_made (rooted : bool) (relems : list string) (perm : N) (fs0 : FS) :
  fst (mkdir_all rooted relems perm fs0) = None ->
  stat rooted relems (snd (mkdir_all rooted relems perm fs0)) = IsDir.
Proof.
  destruct relems as [|e rparent]; cbn [mkdir_all].
  - destruct (stat rooted [] fs0) eqn:Hstat; cbn [fst snd]; [trivial | discriminate |].
    cbn [mkdir]. rewrite Hstat. discriminate.
  - destruct (stat rooted (e :: rparent) fs0) eqn:Hstat; cbn [fst snd];
      [trivial | discriminate |].
    destruct (match rparent with
              | [] => (None, fs0)
              | _ :: _ => mkdir_all rooted rparent perm fs0
              end) as [[perr|] fs1]; [discriminate|].
    destruct (mkdir rooted (e :: rparent) perm fs1) as [[merr|] fs2] eqn:Hmk.
    + destruct (stat rooted (e :: rparent) fs2) eqn:Hstat2; cbn [fst snd];
        [trivial | discriminate | discriminate].
    + intros _. cbn [snd]. exact (mkdir_made _ _ _ _ _ Hmk).
Qed.

(** [path.Clean] goes through the elements as the kernel does. *)
Lemma clean_elems_step (rooted : bool) (es stack : list string) :
  clean_elems rooted stack es
  = rev (fold_left (step rooted)
           (List.filter (fun e => negb (String.eqb e "")) es) stack).
Proof.
  revert stack. induction es as [|e es IH]; intros stack; [reflexivity|].
  cbn [clean_elems List.filter].
  destruct (String.eqb e "") eqn:Hempty; cbn [orb negb]; [apply IH|].
  cbn [fold_left]. unfold step at 2.
  destruct (String.eqb e ".") eqn:Hdot; [apply IH|].
  destruct (String.eqb e "..") eqn:Hdots; [|apply IH].
  destruct stack as [|top below].
  - destruct rooted; apply IH.
  - destruct (String.eqb top ".."); apply IH.
Qed.

(** When [os.MkdirAll] succeeds, the cleaned path is a directory. *)
Lemma fs_MkdirAll_made (path : string) (perm : N) (fs0 : FS) :
  fst (fs_MkdirAll path perm fs0) = None ->
  is_Some (dirs (snd (fs_MkdirAll path perm fs0)) !! path_Clean path).
Proof.
  unfold fs_MkdirAll. destruct (String.eqb path ""); [discriminate|].
  intros Hok. apply mkdir_all_made, stat_IsDir in Hok.
  rewrite rev_involutive in Hok.
  unfold path_Clean, path_elems. rewrite clean_elems_step. exact Hok.
Qed.

(** [os.Create] succeeds on a cleaned name that is no directory, in a
    directory that exists and can be written. *)
Lemma fs_Create_succeeds (name : string) (fs0 : FS) (mode : N) :
  name <> "" ->
  path_Clean name = name ->
  dirs fs0 !! name = None ->
  dirs fs0 !! parent_dir name = Some mode ->
  dir_writable mode = true ->
  fs_Create name fs0 =
    ((Some name, None),
     {| dirs := dirs fs0; files := <[name := []]> (files fs0); free := free fs0;
        umask := umask fs0 |}).
Proof.
  intros Hne Hclean Hnodir Hparent Hmode. unfold fs_Create.
  apply String.eqb_neq in Hne. rewrite Hne, Hclean, Hnodir, Hparent, Hmode.
  rewrite orb_true_r. reflexivity.
Qed.

Lemma fs_Create_ok_parent (name : string) (fs0 : FS) (f : File) (fs1 : FS) :
  fs_Create name fs0 = ((f, None), fs1) ->
  is_Some (dirs fs0 !! parent_dir (path_Clean name)).
Proof.
  unfold fs_Create.
  destruct (String.eqb name ""); [discriminate|].
  destruct (dirs fs0 !! path_Clean name); [discriminate|].
  destruct (dirs fs0 !! parent_dir (path_Clean name)) as [mode|]; [|discriminate].
  intros _. exists mode. reflexivity.
Qed.

Lemma plain_cover : plain "cover.png" = true.
Proof. reflexivity. Qed.

Lemma plain_background : plain "background.png" = true.
Proof. reflexivity. Qed.

(** ** Downloading into a directory that is yet to be made *)

Section PipelineDirectories.

Context {pkg : Sonolus} {lib : GoLib}.
Variable network : string -> Response + error.

Lemma DownloadCover_written
    (source : Source) (level : LevelInfo) (destPath : string)
    (url : string) (resp : Response) (imageData : Image) (w : World)
    (merr : option error) (fs1 fs2 : FS) (f : File) :
  let blank := image_NewRGBA (image_Rect 0 0 512 512) in
  let newImage :=
    ApproxBiLinear_Scale blank (RGBA_Bounds blank)
      imageData (Image_Bounds imageData) Over in
  let key := path_Clean (path_Join destPath "cover.png") in
  JoinUrl ("https://" ++ Host source) (Cover_Url level) = (url, None) ->
  network url = inl resp ->
  StatusCode resp = 200%Z ->
  image_Decode (Body resp) = inl imageData ->
  fs_MkdirAll destPath mode_0755 (fs w) = (merr, fs1) ->
  fs_Create (path_Join destPath "cover.png") fs1 = ((f, None), fs2) ->
  length (png_bytes newImage) <= free fs2 ->
  DownloadCover network source level destPath w =
    (None,
     {| fs := {| dirs := dirs fs2;
                 files := <[key := png_bytes newImage]> (files fs2);
                 free := free fs2 - length (png_bytes newImage);
                 umask := umask fs2 |};
        log := log w ++
               [EvGet url; EvMkdirAll destPath;
                EvCreate (path_Join destPath "cover.png");
                EvFileClose (Some key); EvBodyClose] |}).
Proof.
  intros blank newImage key Hjoin Hnet Hstatus Hdecode Hmkdir Hcreate Hroom.
  destruct (fs_Create_ok _ _ _ _ Hcreate) as [-> Hfs2]. fold key in Hcreate, Hfs2.
  unfold DownloadCover. rewrite Hjoin. run.
  rewrite Hnet, (status_200 _ Hstatus). tidy. rewrite Hmkdir. tidy.
  rewrite Hdecode. fold blank. fold newImage. tidy. rewrite Hcreate.
  rewrite png_Encode_writes
    by (change (Rect newImage) with (image_Rect 0 0 512 512);
        split; reflexivity).
  run. fold key. rewrite fs_Write_fits.
  - tidy. reflexivity.
  - rewrite Hfs2. apply lookup_insert_eq.
  - exact Hroom.
Qed.

(** X16.  [DownloadCover] makes the destination it writes into.  When
    [os.MkdirAll] succeeds on [destPath], the cleaned [destPath], the
    directory in which [path.Join] puts [cover.png], is a directory, also
    when it did not exist before and also when [destPath] is not written in
    its cleaned form.  If that directory, where it was there already, can be
    written, the mask leaves a made one the owner's write and search bits, no
    directory sits at [cover.png] once the directories are made, and the
    device has room, then on a 200 response that decodes [DownloadCover]
    returns nil and [cover.png] holds the encoding. *)
Theorem DownloadCover_makes_destination
    (source : Source) (level : LevelInfo) (destPath : string)
    (url : string) (resp : Response) (imageData : Image) (w : World) :
  let blank := image_NewRGBA (image_Rect 0 0 512 512) in
  let newImage :=
    ApproxBiLinear_Scale blank (RGBA_Bounds blank)
      imageData (Image_Bounds imageData) Over in
  let made := snd (fs_MkdirAll destPath mode_0755 (fs w)) in
  let out := DownloadCover network source level destPath w in
  JoinUrl ("https://" ++ Host source) (Cover_Url level) = (url, None) ->
  network url = inl resp ->
  StatusCode resp = 200%Z ->
  image_Decode (Body resp) = inl imageData ->
  fst (fs_MkdirAll destPath mode_0755 (fs w)) = None ->
  (forall m : N,
     dirs (fs w) !! path_Clean destPath = Some m -> dir_writable m = true) ->
  dir_writable (N.ldiff mode_0755 (umask (fs w))) = true ->
  dirs made !! path_Join destPath "cover.png" = None ->
  length (png_bytes newImage) <= free (fs w) ->
  fst out = None /\
  is_Some (dirs (fs (snd out)) !! path_Clean destPath) /\
  files (fs (snd out)) !! path_Join destPath "cover.png"
    = Some (png_bytes newImage).
Proof.
  intros blank newImage made out Hjoin Hnet Hstatus Hdecode Hmade Hmode Hmask
    Hnodir Hroom.
  destruct (path_Join_plain destPath "cover.png" plain_cover)
    as (Hclean & Hparent & Helems & _).
  destruct (fs_MkdirAll_made destPath mode_0755 (fs w) Hmade) as [m Hm].
  fold made in Hm.
  assert (Hwritable : dir_writable m = true).
  { destruct (fs_MkdirAll_dirs destPath mode_0755 (fs w) _ m Hm)
      as [Hold | [_ ->]]; [apply Hmode, Hold | exact Hmask]. }
  assert (Hjoin_ne : path_Join destPath "cover.png" <> "").
  { intros Hempty. apply (f_equal path_elems) in Hempty.
    rewrite Helems in Hempty. destruct (path_elems destPath); discriminate. }
  rewrite <- Hparent in Hm.
  pose proof (fs_Create_succeeds _ made m Hjoin_ne Hclean Hnodir Hm Hwritable)
    as Hcreate.
  assert (Hfree : free made = free (fs w)) by apply fs_MkdirAll_free.
  assert (Hmkdir : fs_MkdirAll destPath mode_0755 (fs w) = (None, made)).
  { subst made. destruct (fs_MkdirAll destPath mode_0755 (fs w)) as [merr fs1].
    cbn [fst] in Hmade. subst merr. reflexivity. }
  subst out.
  rewrite (DownloadCover_written source level destPath url resp imageData w
             None made _ _ Hjoin Hnet Hstatus Hdecode Hmkdir Hcreate)
    by (cbn [free]; rewrite Hfree; exact Hroom).
  cbn [fst snd fs dirs files]. rewrite Hclean. rewrite Hparent in Hm.
  split; [reflexivity|]. split; [exists m; exact Hm | apply lookup_insert_eq].
Qed.

Lemma DownloadCover_nil_directory
    (source : Source) (level : LevelInfo) (destPath : string) (w : World) :
  fst (DownloadCover network source level destPath w) = None ->
  is_Some (dirs (fs (snd (DownloadCover network source level destPath w)))
             !! path_Clean destPath).
Proof.
  destruct (path_Join_plain destPath "cover.png" plain_cover)
    as (Hclean & Hparent & _).
  unfold DownloadCover.
  destruct (JoinUrl _ _) as [url [jerr|]]; [discriminate|]. run.
  destruct (network url) as [resp|terr]; tidy; [|discriminate].
  destruct (negb (StatusCode resp =? 200)%Z); tidy; [discriminate|].
  destruct (fs_MkdirAll destPath mode_0755 (fs w)) as [merr fs1]. tidy.
  destruct (image_Decode (Body resp)) as [imageData|derr]; tidy; [|discriminate].
  destruct (fs_Create (path_Join destPath "cover.png") fs1)
    as [[f [cerr|]] fs2] eqn:Hcreate; tidy; [discriminate|].
  pose proof (fs_Create_ok_parent _ _ _ _ Hcreate) as Hdir.
  rewrite Hclean, Hparent in Hdir.
  destruct (fs_Create_ok _ _ _ _ Hcreate) as [-> Hfs2].
  assert (Hdirs2 : dirs fs2 = dirs fs1) by (rewrite Hfs2; reflexivity).
  unfold png_Encode. destruct (_ || _); run; [discriminate|].
  pose proof (fs_Write_dirs (Some (path_Clean (path_Join destPath "cover.png")))
                (png_bytes (ApproxBiLinear_Scale
                   (image_NewRGBA (image_Rect 0 0 512 512))
                   (RGBA_Bounds (image_NewRGBA (image_Rect 0 0 512 512)))
                   imageData (Image_Bounds imageData) Over)) fs2) as Hdirs3.
  destruct (fs_Write _ _ fs2) as [[n [werr|]] fs3]; tidy; [discriminate|].
  intros _. cbn [snd] in Hdirs3. rewrite Hdirs3, Hdirs2. exact Hdir.
Qed.

Lemma DownloadBackground_created
    (source : Source) (level : LevelInfo) (destPath : string)
    (url : string) (jerr : option error) (resp : Response) (w : World)
    (f : File) (fs1 : FS) :
  let name := path_Join destPath "background.png" in
  JoinUrl ("https://" ++ Host source) (UseBackground_Item_Image_Url level)
    = (url, jerr) ->
  network url = inl resp ->
  StatusCode resp = 200%Z ->
  fs_Create name (fs w) = ((f, None), fs1) ->
  DownloadBackground network source level destPath w =
    (None,
     {| fs := snd (fs_Write (Some (path_Clean name)) (bytes (Body resp)) fs1);
        log := log w ++ [EvGet url; EvCreate name;
                         EvFileClose (Some (path_Clean name)); EvBodyClose] |}).
Proof.
  intros name Hjoin Hnet Hstatus Hcreate.
  destruct (fs_Create_ok _ _ _ _ Hcreate) as [-> _].
  unfold DownloadBackground. rewrite Hjoin. run.
  rewrite Hnet, (status_200 _ Hstatus). tidy. fold name. rewrite Hcreate. tidy.
  destruct (fs_Write _ (bytes (Body resp)) fs1) as [[n werr] fs2]. tidy.
  destruct werr; tidy; reflexivity.
Qed.

(** X17.  The directory [DownloadCover] wrote into serves
    [DownloadBackground].  In the world a successful [DownloadCover] leaves,
    if the destination can be written and no directory sits at
    [background.png], [DownloadBackground] for the same [destPath] returns
    nil on a 200 response, [background.png] holds the body as far as the
    device has room, and [cover.png] stays as it is. *)
Theorem DownloadBackground_after_DownloadCover
    (source : Source) (level : LevelInfo) (destPath : string)
    (url : string) (jerr : option error) (resp : Response) (w : World) :
  let w1 := snd (DownloadCover network source level destPath w) in
  let out := DownloadBackground network source level destPath w1 in
  fst (DownloadCover network source level destPath w) = None ->
  JoinUrl ("https://" ++ Host source) (UseBackground_Item_Image_Url level)
    = (url, jerr) ->
  network url = inl resp ->
  StatusCode resp = 200%Z ->
  (forall m : N,
     dirs (fs w1) !! path_Clean destPath = Some m -> dir_writable m = true) ->
  dirs (fs w1) !! path_Join destPath "background.png" = None ->
  fst out = None /\
  files (fs (snd out)) !! path_Join destPath "background.png"
    = Some (firstn (free (fs w1)) (bytes (Body resp))) /\
  files (fs (snd out)) !! path_Join destPath "cover.png"
    = files (fs w1) !! path_Join destPath "cover.png".
Proof.
  intros w1 out Hcover Hjoin Hnet Hstatus Hmode Hnodir.
  destruct (path_Join_plain destPath "background.png" plain_background)
    as (Hclean & Hparent & Helems & _).
  destruct (path_Join_plain destPath "cover.png" plain_cover)
    as (_ & _ & Helems_cover & _).
  destruct (DownloadCover_nil_directory source level destPath w Hcover)
    as [m Hm].
  fold w1 in Hm. pose proof (Hmode m Hm) as Hwritable.
  assert (Hname : path_Join destPath "background.png" <> "").
  { intros Hempty. apply (f_equal path_elems) in Hempty.
    rewrite Helems in Hempty. destruct (path_elems destPath); discriminate. }
  assert (Hdistinct : path_Join destPath "cover.png"
                      <> path_Join destPath "background.png").
  { intros Hsame. apply (f_equal path_elems) in Hsame.
    rewrite Helems, Helems_cover in Hsame.
    apply app_inv_head in Hsame. discriminate Hsame. }
  rewrite <- Hparent in Hm.
  pose proof (fs_Create_succeeds _ (fs w1) m Hname Hclean Hnodir Hm Hwritable)
    as Hcreate.
  subst out.
  rewrite (DownloadBackground_created source level destPath url jerr resp w1
             _ _ Hjoin Hnet Hstatus Hcreate).
  cbn [fst snd fs]. rewrite Hclean.
  split; [reflexivity|]. split.
  - rewrite fs_Write_content by (cbn [files]; apply lookup_insert_eq).
    reflexivity.
  - rewrite fs_Write_other by exact Hdistinct. cbn [files].
    apply lookup_insert_ne. congruence.
Qed.

End PipelineDirectories.

(** The destination is written [/tmp/out/../out2/a]: neither [/tmp/out] nor
    [/tmp/out2] exists.  Both are made, and the cover goes to [/tmp/out2/a]. *)
Lemma DownloadCover_makes_destination_example :
  let network := Fixture.cover Fixture.picture in
  let out := DownloadCover (pkg := Stub.sonolus) (lib := Stub.golib)
               network Stub.potato Stub.item "/tmp/out/../out2/a" (Stub.disk 4) in
  dirs (fs (Stub.disk 4)) !! "/tmp/out" = None /\
  dirs (fs (Stub.disk 4)) !! "/tmp/out2" = None /\
  path_Clean "/tmp/out/../out2/a" = "/tmp/out2/a" /\
  path_Join "/tmp/out/../out2/a" "cover.png" = "/tmp/out2/a/cover.png" /\
  dirs (fs (snd out)) !! "/tmp/out" = Some mode_0755 /\
  fst out = None /\
  is_Some (dirs (fs (snd out)) !! path_Clean "/tmp/out/../out2/a") /\
  files (fs (snd out)) !! path_Join "/tmp/out/../out2/a" "cover.png"
    = Some [Byte.x89; Byte.x50; Byte.x4e; Byte.x47].
Proof.
  intros network out.
  do 5 (split; [vm_compute; reflexivity|]).
  apply (DownloadCover_makes_destination (pkg := Stub.sonolus) (lib := Stub.golib)
           network Stub.potato Stub.item "/tmp/out/../out2/a"
           "https://ptlv.sevenc7c.com/cover.png"
           (mkResponse 200 Fixture.picture) (image_Rect 0 0 100 50) (Stub.disk 4)).
  - reflexivity.
  - reflexivity.
  - reflexivity.
  - reflexivity.
  - vm_compute. reflexivity.
  - intros m Hm. vm_compute in Hm. discriminate Hm.
  - vm_compute. reflexivity.
  - vm_compute. reflexivity.
  - vm_compute. lia.
Defined.

(** The cover, then the background, into [/tmp/out], which does not exist
    at the start. *)
Lemma DownloadBackground_after_DownloadCover_example :
  let body := mkStream [Byte.x47; Byte.x49; Byte.x46] None in
  let network := Fixture.assets Fixture.picture body in
  let w1 := snd (DownloadCover (pkg := Stub.sonolus) (lib := Stub.golib)
                   network Stub.potato Stub.item "/tmp/out" (Stub.disk 8)) in
  let out := DownloadBackground (pkg := Stub.sonolus)
               network Stub.potato Stub.item "/tmp/out" w1 in
  dirs (fs (Stub.disk 8)) !! "/tmp/out" = None /\
  fst out = None /\
  files (fs (snd out)) !! "/tmp/out/background.png"
    = Some [Byte.x47; Byte.x49; Byte.x46] /\
  files (fs (snd out)) !! "/tmp/out/cover.png"
    = Some [Byte.x89; Byte.x50; Byte.x4e; Byte.x47].
Proof.
  intros body network w1 out.
  split; [vm_compute; reflexivity|].
  destruct (DownloadBackground_after_DownloadCover
              (pkg := Stub.sonolus) (lib := Stub.golib)
              network Stub.potato Stub.item "/tmp/out"
              "https://ptlv.sevenc7c.com/background.png" None
              (mkResponse 200 body) (Stub.disk 8))
    as (Hnil & Hbackground & Hcover).
  - vm_compute. reflexivity.
  - reflexivity.
  - reflexivity.
  - reflexivity.
  - intros m Hm. vm_compute in Hm. inversion Hm. reflexivity.
  - vm_compute. reflexivity.
  - split; [exact Hnil|]. split.
    + etransitivity; [exact Hbackground|]. vm_compute. reflexivity.
    + etransitivity; [exact Hcover|]. vm_compute. reflexivity.
Defined.
